(** * velog-golang-resize-image: the Lambda image resizer (main.go)

    A shallow embedding of [main.go] and of the library routines it calls,
    followed by the properties of the handler.

    Layout.
    - Part I    Go library routines used by [main.go], each in a module named
                after its Go package: [Strconv], [Strings], [Errors], [Http],
                [Time], [Base64], [Image], [Imaging], [S3], [Events].  The
                pure routines are written out; the image codecs, the
                resampling and the clock are an interface with laws.
    - Part II   [main.go] itself: [RequestConfig], [bucketName],
                [errResponse], [resizer], [handler].
    - Part III  a small reference codec, an instance of the imaging
                interface on which the handler can be run.
    - Part IV   the vocabulary of the specification.
    - Part V    lemmas and theorems.
    - Part VI   further properties: every run of the handler, its calls to
                the storage, the results of the resizer, [Atoi] on numbers.

    Go's [int] is the 64-bit integer of the Lambda runtimes (amd64, arm64);
    it is modelled as [Z], with wrap-around written where Go arithmetic can
    wrap.  A Go [string] is a [string] of bytes, a [[]byte] a [list byte],
    a [map[string]string] a [gmap string string].  A run of the handler
    yields its two results or a panic, together with the calls it made to
    the storage. *)

From Stdlib Require Import ZArith Lia String Ascii List Bool.
From Stdlib.Strings Require Import Byte.
From stdpp Require Import gmap strings.
Import ListNotations.

Local Open Scope string_scope.
Local Open Scope Z_scope.

(* ===================================================================== *)
(** * Part I: library routines                                            *)
(* ===================================================================== *)

(** The numeric value of a byte of a Go string. *)
Definition byte_val (c : ascii) : Z := Z.of_N (N_of_ascii c).

(** Two's-complement wrap of a mathematical integer into Go's [int64]. *)
Definition int64 (z : Z) : Z := (z + 2 ^ 63) mod 2 ^ 64 - 2 ^ 63.

(** ** strconv (atoi.go) *)
Module Strconv.

(** The two causes a [*NumError] can carry. *)
Inductive NumError := ErrSyntax | ErrRange.

Definition maxUint64 : Z := 2 ^ 64 - 1.

(** [ParseUint(s, 10, 0)], the loop over the bytes of [s].  In base 10 a
    byte that is not a decimal digit is a syntax error (the underscore
    and letter branches of the Go switch all end there); a digit that
    makes the value leave [uint64] ends the loop AT ONCE with [ErrRange]
    and the largest value: the bytes after it are not looked at. *)
Fixpoint parseUintLoop (s : string) (n : Z) : Z * option NumError :=
  match s with
  | EmptyString => (n, None)
  | String c s' =>
      if (48 <=? byte_val c) && (byte_val c <=? 57) then
        let d := byte_val c - 48 in
        let cutoff := maxUint64 / 10 + 1 in
        let maxVal := 2 ^ 64 - 1 in
        if cutoff <=? n then (maxVal, Some ErrRange)
        else
          let n := n * 10 in
          let n1 := (n + d) mod 2 ^ 64 in
          if (n1 <? n) || (maxVal <? n1) then (maxVal, Some ErrRange)
          else parseUintLoop s' n1
      else (0, Some ErrSyntax)
  end.

Definition ParseUint (s : string) : Z * option NumError :=
  match s with
  | EmptyString => (0, Some ErrSyntax)
  | _ => parseUintLoop s 0
  end.

(** [ParseInt(s, 10, 0)]: the sign is picked off, the digits go through
    [ParseUint], and the result is clamped to [int64] on overflow. *)
Definition ParseInt (s : string) : Z * option NumError :=
  match s with
  | EmptyString => (0, Some ErrSyntax)
  | String c0 rest =>
      let neg := Ascii.eqb c0 "-" in
      let s1 := if Ascii.eqb c0 "+" || neg then rest else s in
      match ParseUint s1 with
      | (_, Some ErrSyntax) => (0, Some ErrSyntax)
      | (un, _) =>
          let cutoff := 2 ^ 63 in
          if negb neg && (cutoff <=? un) then (cutoff - 1, Some ErrRange)
          else if neg && (cutoff <? un) then (- cutoff, Some ErrRange)
          else
            let n := int64 un in
            (if neg then int64 (- n) else n, None)
      end
  end.

(** The fast path of [Atoi]: [ch -= '0'] is byte arithmetic, so a byte
    below ['0'] wraps above 9. *)
Fixpoint atoiFastLoop (s : string) (n : Z) : option Z :=
  match s with
  | EmptyString => Some n
  | String c s' =>
      let ch := (byte_val c - 48) mod 256 in
      if 9 <? ch then None else atoiFastLoop s' (int64 (n * 10 + ch))
  end.

Definition strlen (s : string) : Z := Z.of_nat (String.length s).

(** [Atoi(s)] with [intSize = 64]. *)
Definition Atoi (s : string) : Z * option NumError :=
  let sLen := strlen s in
  if (0 <? sLen) && (sLen <? 19) then
    match s with
    | EmptyString => (0, Some ErrSyntax)
    | String c0 rest =>
        let signed := Ascii.eqb c0 "-" || Ascii.eqb c0 "+" in
        let s1 := if signed then rest else s in
        if signed && (strlen s1 <? 1) then (0, Some ErrSyntax)
        else
          match atoiFastLoop s1 0 with
          | None => (0, Some ErrSyntax)
          | Some n => (if Ascii.eqb c0 "-" then int64 (- n) else n, None)
          end
    end
  else ParseInt s.

End Strconv.

(** ** strings *)
Module Strings.

Fixpoint HasPrefix (s prefix : string) : bool :=
  match prefix, s with
  | EmptyString, _ => true
  | String a p, String b s' => Ascii.eqb a b && HasPrefix s' p
  | String _ _, EmptyString => false
  end.

(** [Contains(s, substr)] reports whether [substr] occurs within [s]. *)
Fixpoint Contains (s substr : string) : bool :=
  HasPrefix s substr ||
  match s with
  | EmptyString => false
  | String _ s' => Contains s' substr
  end.

(** [Join(elems, sep)]. *)
Fixpoint Join (elems : list string) (sep : string) : string :=
  match elems with
  | [] => EmptyString
  | [e] => e
  | e :: rest => String.append e (String.append sep (Join rest sep))
  end.

End Strings.

(** ** errors (github.com/pkg/errors) and the error values of the program *)

(** The error values that reach [main.go]: a value that implements
    [awserr.Error] (it has a [Code()]), any other error, and the wrapper
    [*withMessage] built by [errors.WithMessage].  Go's [nil] error is
    [None] of [option error]. *)
Inductive error :=
| AwsError (code message : string)
| OtherError (message : string)
| withMessage (cause : error) (msg : string).

Module Errors.

(** [WithMessage(err, message)]: "If err is nil, WithMessage returns nil." *)
Definition WithMessage (err : option error) (message : string) : option error :=
  match err with
  | None => None
  | Some cause => Some (withMessage cause message)
  end.

End Errors.

(** ** net/http (status.go) *)
Module Http.

Definition StatusBadRequest : Z := 400.
Definition StatusNotFound : Z := 404.
Definition StatusInternalServerError : Z := 500.

(** [TimeFormat], the layout of an HTTP date. *)
Definition TimeFormat : string := "Mon, 02 Jan 2006 15:04:05 GMT".

(** [StatusText(code)]: the registered reason phrase, empty when the code
    is unknown. *)
Definition StatusText (code : Z) : string :=
  match code with
  | 100 => "Continue"
  | 101 => "Switching Protocols"
  | 102 => "Processing"
  | 103 => "Early Hints"
  | 200 => "OK"
  | 201 => "Created"
  | 202 => "Accepted"
  | 203 => "Non-Authoritative Information"
  | 204 => "No Content"
  | 205 => "Reset Content"
  | 206 => "Partial Content"
  | 207 => "Multi-Status"
  | 208 => "Already Reported"
  | 226 => "IM Used"
  | 300 => "Multiple Choices"
  | 301 => "Moved Permanently"
  | 302 => "Found"
  | 303 => "See Other"
  | 304 => "Not Modified"
  | 305 => "Use Proxy"
  | 307 => "Temporary Redirect"
  | 308 => "Permanent Redirect"
  | 400 => "Bad Request"
  | 401 => "Unauthorized"
  | 402 => "Payment Required"
  | 403 => "Forbidden"
  | 404 => "Not Found"
  | 405 => "Method Not Allowed"
  | 406 => "Not Acceptable"
  | 407 => "Proxy Authentication Required"
  | 408 => "Request Timeout"
  | 409 => "Conflict"
  | 410 => "Gone"
  | 411 => "Length Required"
  | 412 => "Precondition Failed"
  | 413 => "Request Entity Too Large"
  | 414 => "Request URI Too Long"
  | 415 => "Unsupported Media Type"
  | 416 => "Requested Range Not Satisfiable"
  | 417 => "Expectation Failed"
  | 418 => "I'm a teapot"
  | 421 => "Misdirected Request"
  | 422 => "Unprocessable Entity"
  | 423 => "Locked"
  | 424 => "Failed Dependency"
  | 425 => "Too Early"
  | 426 => "Upgrade Required"
  | 428 => "Precondition Required"
  | 429 => "Too Many Requests"
  | 431 => "Request Header Fields Too Large"
  | 451 => "Unavailable For Legal Reasons"
  | 500 => "Internal Server Error"
  | 501 => "Not Implemented"
  | 502 => "Bad Gateway"
  | 503 => "Service Unavailable"
  | 504 => "Gateway Timeout"
  | 505 => "HTTP Version Not Supported"
  | 506 => "Variant Also Negotiates"
  | 507 => "Insufficient Storage"
  | 508 => "Loop Detected"
  | 510 => "Not Extended"
  | 511 => "Network Authentication Required"
  | _ => EmptyString
  end.

End Http.

(** ** time *)
Module Time.

(** [time.Time] and its [Format] method; the calendar arithmetic behind
    [Format] plays no part in the handler's decisions. *)
Class Lib := {
  T : Type;
  Format : T -> string -> string
}.

End Time.

(** ** encoding/base64 (base64.go) *)
Module Base64.

Definition encodeStd : string :=
  "ABCDEFGHIJKLMNOPQRSTUVWXYZabcdefghijklmnopqrstuvwxyz0123456789+/".

Definition StdPadding : ascii := "="%char.

(** [uint(b)] for a byte [b], and the conversion [byte(z)] back. *)
Definition byteZ (b : byte) : Z := Z.of_N (Byte.to_N b).

Definition byteOf (z : Z) : byte :=
  match Byte.of_N (Z.to_N (z mod 256)) with
  | Some b => b
  | None => x00
  end.

(** [enc.encode[i]], the [i]-th letter of the alphabet. *)
Definition encode (i : Z) : ascii :=
  match String.get (Z.to_nat i) encodeStd with
  | Some c => c
  | None => StdPadding
  end.

(** [StdEncoding.EncodeToString(src)]: three bytes make four letters; a
    remainder of one or two bytes is padded with ['=']. *)
Fixpoint EncodeToString (src : list byte) : string :=
  match src with
  | a :: b :: c :: rest =>
      let val := Z.lor (Z.lor (Z.shiftl (byteZ a) 16) (Z.shiftl (byteZ b) 8))
                       (byteZ c) in
      String (encode (Z.land (Z.shiftr val 18) 63))
     (String (encode (Z.land (Z.shiftr val 12) 63))
     (String (encode (Z.land (Z.shiftr val 6) 63))
     (String (encode (Z.land val 63))
             (EncodeToString rest))))
  | [a; b] =>
      let val := Z.lor (Z.shiftl (byteZ a) 16) (Z.shiftl (byteZ b) 8) in
      String (encode (Z.land (Z.shiftr val 18) 63))
     (String (encode (Z.land (Z.shiftr val 12) 63))
     (String (encode (Z.land (Z.shiftr val 6) 63))
     (String StdPadding EmptyString)))
  | [a] =>
      let val := Z.shiftl (byteZ a) 16 in
      String (encode (Z.land (Z.shiftr val 18) 63))
     (String (encode (Z.land (Z.shiftr val 12) 63))
     (String StdPadding
     (String StdPadding EmptyString)))
  | [] => EmptyString
  end.

(** The reading side.  [main.go] never decodes: this is the decoder of
    the caller who receives the body, RFC 4648 section 4 with mandatory
    padding, which [StdEncoding.DecodeString] implements too. *)
Fixpoint indexFrom (c : ascii) (s : string) (i : Z) : option Z :=
  match s with
  | EmptyString => None
  | String c' s' => if Ascii.eqb c c' then Some i else indexFrom c s' (i + 1)
  end.

Definition decodeMap (c : ascii) : option Z := indexFrom c encodeStd 0.

Definition quantum (s0 s1 s2 s3 : Z) : Z :=
  Z.lor (Z.lor (Z.lor (Z.shiftl s0 18) (Z.shiftl s1 12)) (Z.shiftl s2 6)) s3.

Fixpoint DecodeString (s : string) : option (list byte) :=
  match s with
  | EmptyString => Some []
  | String c0 (String c1 (String c2 (String c3 rest))) =>
      match decodeMap c0, decodeMap c1 with
      | Some s0, Some s1 =>
          match rest, Ascii.eqb c3 StdPadding with
          | EmptyString, true =>
              if Ascii.eqb c2 StdPadding then
                Some [byteOf (Z.shiftr (quantum s0 s1 0 0) 16)]
              else
                match decodeMap c2 with
                | Some s2 =>
                    let val := quantum s0 s1 s2 0 in
                    Some [byteOf (Z.shiftr val 16); byteOf (Z.shiftr val 8)]
                | None => None
                end
          | _, _ =>
              match decodeMap c2, decodeMap c3, DecodeString rest with
              | Some s2, Some s3, Some tl =>
                  let val := quantum s0 s1 s2 s3 in
                  Some (byteOf (Z.shiftr val 16) :: byteOf (Z.shiftr val 8)
                        :: byteOf val :: tl)
              | _, _, _ => None
              end
          end
      | _, _ => None
      end
  | _ => None
  end.

End Base64.

(** ** Panics *)

(** What a panic carries: the runtime's error for a nil pointer, or the
    value a library panicked with, such as [image.NewNRGBA]'s "image:
    NewNRGBA Rectangle has huge or negative dimensions" and [make]'s
    "runtime error: makeslice: len out of range". *)
Inductive RuntimeError :=
| NilPointerDereference
| PanicValue (message : string).

(** A computation that yields a value or panics. *)
Inductive Exec (A : Type) :=
| Value (a : A)
| Panics (e : RuntimeError).
Arguments Value {A} a.
Arguments Panics {A} e.

#[global] Instance Exec_ret : MRet Exec := fun A a => Value a.
#[global] Instance Exec_bind : MBind Exec := fun A B f m =>
  match m with
  | Value a => f a
  | Panics e => Panics e
  end.

(** ** image (geom.go) *)
Module Image.

Record Point := { X : Z; Y : Z }.
Record Rectangle := { Min : Point; Max : Point }.

(** [r.Dx()] and [r.Dy()], the width and the height of [r]. *)
Definition Dx (r : Rectangle) : Z := X (Max r) - X (Min r).
Definition Dy (r : Rectangle) : Z := Y (Max r) - Y (Min r).

(** [Rect(x0, y0, x1, y1)], with the corners put in order. *)
Definition Rect (x0 y0 x1 y1 : Z) : Rectangle :=
  let '(x0, x1) := if x1 <? x0 then (x1, x0) else (x0, x1) in
  let '(y0, y1) := if y1 <? y0 then (y1, y0) else (y0, y1) in
  {| Min := {| X := x0; Y := y0 |}; Max := {| X := x1; Y := y1 |} |}.

End Image.

(** ** github.com/disintegration/imaging *)
Module Imaging.
Import Image.

Inductive Format := JPEG | PNG | GIF | TIFF | BMP.

(** The resampling filters; only [NearestNeighbor] has [Support = 0]. *)
Inductive ResampleFilter :=
| NearestNeighbor | Box | Linear | CatmullRom | Lanczos.

(** What the library does with pixels, as an interface: the codecs
    ([Decode] reads a whole [io.Reader], given here by its bytes), the
    resampling passes that [Resize] ends in, and the floating-point
    rounding [Resize] uses to keep an aspect ratio,
    [int(math.Max(1.0, math.Floor(float64(a)*float64(b)/float64(c) + 0.5)))].
    The resampling passes allocate their buffers with
    [image.NewNRGBA(image.Rect(0, 0, w, h))] and [make], which panic when
    the sides are too large: [resample] yields an image or panics, and
    the interface does not say for which sides it returns.
    The laws are those of the library: the empty [&image.NRGBA{}] has the
    zero rectangle as bounds, a resampling pass that returns has
    allocated its result with [image.Rect(0, 0, w, h)] as bounds, and the
    rounded dimension is at least one pixel. *)
Class Lib := {
  Img : Type;
  Bounds : Img -> Rectangle;
  Decode : list byte -> Img + error;
  Encode : Img -> Format -> list byte + error;
  emptyNRGBA : Img;
  resample : Img -> Z -> Z -> ResampleFilter -> Exec Img;
  scaleDim : Z -> Z -> Z -> Z;
  Bounds_emptyNRGBA : Bounds emptyNRGBA = Rect 0 0 0 0;
  Bounds_resample : forall img w h f out,
    0 < w -> 0 < h -> resample img w h f = Value out ->
    Bounds out = Rect 0 0 w h;
  scaleDim_min : forall a b c,
    0 < a < 2 ^ 31 -> 0 < b < 2 ^ 31 -> 0 < c < 2 ^ 31 -> 1 <= scaleDim a b c
}.

(** [Resize(img, width, height, filter)] (resize.go).  The three early
    returns allocate nothing; past them the function returns what the
    resampling passes return, or panics with them. *)
Definition Resize `{Lib} (img : Img) (width height : Z)
    (filter : ResampleFilter) : Exec Img :=
  let dstW := width in
  let dstH := height in
  if (dstW <? 0) || (dstH <? 0) then Value emptyNRGBA
  else if (dstW =? 0) && (dstH =? 0) then Value emptyNRGBA
  else
    let srcW := Dx (Bounds img) in
    let srcH := Dy (Bounds img) in
    if (srcW <=? 0) || (srcH <=? 0) then Value emptyNRGBA
    else
      (* If new width or height is 0 then preserve aspect ratio, minimum 1px. *)
      let dstW := if dstW =? 0 then scaleDim dstH srcW srcH else dstW in
      let dstH := if dstH =? 0 then scaleDim dstW srcH srcW else dstH in
      resample img dstW dstH filter.

End Imaging.

(** ** github.com/aws/aws-sdk-go/service/s3 *)
Module S3.

Definition ErrCodeNoSuchBucket : string := "NoSuchBucket".
Definition ErrCodeNoSuchKey : string := "NoSuchKey".

Record GetObjectInput := { Bucket : string; Key : string }.

(** The fields of [GetObjectOutput] the handler reads.  [CacheControl],
    [ETag] and [LastModified] are pointers: [None] is [nil]. *)
Record GetObjectOutput `{Time.Lib} := {
  Body : list byte;
  CacheControl : option string;
  ETag : option string;
  LastModified : option Time.T
}.

(** The client [svc]: what [GetObject] answers for each input, that is
    the state of the storage at the time of the request. *)
Definition Client `{Time.Lib} : Type := GetObjectInput -> GetObjectOutput + error.

End S3.

(** ** github.com/aws/aws-lambda-go/events *)
Module Events.

Record APIGatewayProxyRequest := {
  Path : string;
  QueryStringParameters : gmap string string
}.

Record APIGatewayProxyResponse := {
  StatusCode : Z;
  Headers : gmap string string;
  Body : string;
  IsBase64Encoded : bool
}.

End Events.

(** ** The Go runtime *)

(** [m[k]] on a [map[string]string]: the zero value when [k] is absent. *)
Definition mapIndex (m : gmap string string) (k : string) : string :=
  default EmptyString (m !! k).

(** [*p]. *)
Definition deref {A} (p : option A) : Exec A :=
  match p with
  | Some a => Value a
  | None => Panics NilPointerDereference
  end.

(** What a run of the handler does to the outside world. *)
Inductive Effect :=
| CallGetObject (input : S3.GetObjectInput)
| CloseBody.

(* ===================================================================== *)
(** * Part II: main.go                                                    *)
(* ===================================================================== *)

Record RequestConfig := {
  Bucket : string;
  ObjectKey : string;
  Width : Z;
  Height : Z
}.

Definition bucketName : string := "s3.images.story.io".

Definition errResponse (code : Z) : Events.APIGatewayProxyResponse :=
  {| Events.Body := Http.StatusText code;
     Events.Headers := {[ "Content-Type" := "text/plain" ]};
     Events.StatusCode := code;
     Events.IsBase64Encoded := false |}.

Section Main.
Context `{IL : Imaging.Lib} `{TL : Time.Lib}.
Import Imaging.

(** [resizer] returns its two results, or panics where [imaging.Resize]
    panics (line 74). *)
Definition resizer (req : list byte) (config : RequestConfig)
    : Exec (string * option error) :=
  match Decode req with
  | inr err => Value (EmptyString, Some err)
  | inl srcImg =>
      let b := Bounds srcImg in
      if Image.X (Image.Max b) <=? Width config then
        match Encode srcImg JPEG with
        | inr err => Value (EmptyString, Some err)
        | inl buf => Value (Base64.EncodeToString buf, None)
        end
      else
        match Resize srcImg (Width config) (Height config) Lanczos with
        | Panics e => Panics e
        | Value dstImg =>
            match Encode dstImg JPEG with
            | inr err => Value (EmptyString, Some err)
            | inl buf => Value (Base64.EncodeToString buf, None)
            end
        end
  end.

(** The result of a run: the two values returned, or a panic. *)
Definition Outcome : Type :=
  Exec (Events.APIGatewayProxyResponse * option error).

Definition handler (svc : S3.Client) (req : Events.APIGatewayProxyRequest)
    : Outcome * list Effect :=
  let width := fst (Strconv.Atoi (mapIndex (Events.QueryStringParameters req) "width")) in
  let height := fst (Strconv.Atoi (mapIndex (Events.QueryStringParameters req) "height")) in
  let objectKey := Events.Path req in
  let allowedHosts := ["images.story.io"] in
  if negb (Strings.Contains (Strings.Join allowedHosts ",") objectKey) then
    (Value (errResponse Http.StatusBadRequest,
            Errors.WithMessage None "NOT_ALLOWED_HOST"), [])
  else if (width <=? 0) && (height <=? 0) then
    (Value (errResponse Http.StatusBadRequest,
            Errors.WithMessage None "WIDTH AND HEIGHT INVALID DATA"), [])
  else
    let config := {| Width := width; Height := height;
                     Bucket := bucketName; ObjectKey := objectKey |} in
    let input := {| S3.Bucket := Bucket config; S3.Key := ObjectKey config |} in
    match svc input with
    | inr err =>
        let notFound :=
          match err with
          | AwsError code _ =>
              String.eqb code S3.ErrCodeNoSuchBucket
              || String.eqb code S3.ErrCodeNoSuchKey
          | _ => false
          end in
        if notFound then
          (Value (errResponse Http.StatusNotFound, None), [CallGetObject input])
        else
          (Value (errResponse Http.StatusInternalServerError,
                  Errors.WithMessage (Some err) "WIDTH AND HEIGHT INVALID DATA"),
           [CallGetObject input])
    | inl resp =>
        (* defer resp.Body.Close(): it runs on every way out, a panic too *)
        let effects := [CallGetObject input; CloseBody] in
        match resizer (S3.Body resp) config with
        | Panics e => (Panics e, effects)
        | Value (_, Some err) =>
            (Value (errResponse Http.StatusInternalServerError,
                    Errors.WithMessage (Some err) "RESIZE PARSING ERROR"),
             effects)
        | Value (resize, None) =>
            (cacheControl ← deref (S3.CacheControl resp);
             lastModified ← deref (S3.LastModified resp);
             eTag ← deref (S3.ETag resp);
             mret ({| Events.Body := resize;
                      Events.Headers :=
                        <[ "Content-Type" := "image/jpeg" ]>
                        (<[ "Cache-Control" := cacheControl ]>
                        (<[ "Last-Modified" := Time.Format lastModified Http.TimeFormat ]>
                        (<[ "ETag" := eTag ]> ∅)));
                      Events.StatusCode := 200;
                      Events.IsBase64Encoded := true |}, None),
             effects)
        end
    end.

End Main.

(* ===================================================================== *)
(** * Part III: a reference codec                                         *)
(* ===================================================================== *)

(** An instance of the imaging interface that keeps only what the handler
    decides on, the bounds of an image.  A "raster" file is a six-byte
    header: the offset of the frame (x, y), as a GIF image descriptor has
    it, then the width and the height, two bytes each, big-endian.  The
    encoder writes the dimensions between the JPEG start and end markers
    and, like [image/jpeg], refuses a side of 65536 pixels or more.  The
    aspect rounding is the exact [floor(a*b/c + 1/2)], at least 1. *)
Module Reference.
Import Image.

Definition be16 (hi lo : byte) : Z := Base64.byteZ hi * 256 + Base64.byteZ lo.

Definition Decode (r : list byte) : Rectangle + error :=
  match r with
  | x0 :: y0 :: wh :: wl :: hh :: hl :: _ =>
      let x := Base64.byteZ x0 in
      let y := Base64.byteZ y0 in
      inl {| Min := {| X := x; Y := y |};
             Max := {| X := x + be16 wh wl; Y := y + be16 hh hl |} |}
  | _ => inr (OtherError "image: unknown format")
  end.

Definition Encode (img : Rectangle) (fmt : Imaging.Format) : list byte + error :=
  if (65536 <=? Dx img) || (65536 <=? Dy img) then
    inr (OtherError "jpeg: image is too large to encode")
  else
    inl [xff; xd8;
         Base64.byteOf (Dy img / 256); Base64.byteOf (Dy img);
         Base64.byteOf (Dx img / 256); Base64.byteOf (Dx img);
         xff; xd9].

Definition scaleDim (a b c : Z) : Z := Z.max 1 ((2 * a * b + c) / (2 * c)).

(** [image.NewNRGBA(image.Rect(0, 0, w, h))]: four bytes a pixel.  It
    panics when the length of the buffer leaves [int], and [make] panics
    when the length is beyond what the runtime can address ([maxAlloc],
    2^48 bytes on amd64 and arm64). *)
Definition maxAlloc : Z := 2 ^ 48.

Definition NewNRGBA (w h : Z) : Exec Rectangle :=
  let r := Rect 0 0 w h in
  let totalLength := 4 * Dx r * Dy r in
  if 2 ^ 63 <=? totalLength then
    Panics (PanicValue "image: NewNRGBA Rectangle has huge or negative dimensions")
  else if maxAlloc <? totalLength then
    Panics (PanicValue "runtime error: makeslice: len out of range")
  else Value r.

(** The passes of [Resize]: a horizontal one into a buffer of [w] by the
    source's height when the width changes, then the buffer of [w] by
    [h]. *)
Definition resample (img : Rectangle) (w h : Z) (f : Imaging.ResampleFilter)
    : Exec Rectangle :=
  match (if Dx img =? w then Value img else NewNRGBA w (Dy img)) with
  | Panics e => Panics e
  | Value _ => NewNRGBA w h
  end.

#[global] Instance imaging : Imaging.Lib := {|
  Imaging.Img := Rectangle;
  Imaging.Bounds := fun img => img;
  Imaging.Decode := Decode;
  Imaging.Encode := Encode;
  Imaging.emptyNRGBA := Rect 0 0 0 0;
  Imaging.resample := resample;
  Imaging.scaleDim := scaleDim;
  Imaging.Bounds_emptyNRGBA := eq_refl;
  Imaging.Bounds_resample :=
    ltac:(intros img w h f out _ _; unfold resample, NewNRGBA;
          repeat match goal with
                 | |- context [if ?b then _ else _] => destruct b
                 end;
          intros H; first [discriminate H | injection H as <-; reflexivity]);
  Imaging.scaleDim_min := fun a b c _ _ _ => Z.le_max_l 1 _
|}.

(** A clock with one instant, Go's reference time, which formats to the
    layout itself. *)
#[global] Instance time : Time.Lib := {|
  Time.T := unit;
  Time.Format := fun _ layout => layout
|}.

(** A bucket holding one object under [key]; every other key is missing. *)
Definition bucket (key : string) (obj : S3.GetObjectOutput) : S3.Client :=
  fun input =>
    if String.eqb (S3.Bucket input) bucketName && String.eqb (S3.Key input) key
    then inl obj
    else inr (AwsError S3.ErrCodeNoSuchKey "The specified key does not exist.").

(** A raster of [w] by [h] pixels whose frame starts at column [x0]. *)
Definition raster (x0 w h : Z) : list byte :=
  [Base64.byteOf x0; x00;
   Base64.byteOf (w / 256); Base64.byteOf w;
   Base64.byteOf (h / 256); Base64.byteOf h].

Definition object (body : list byte) : S3.GetObjectOutput :=
  {| S3.Body := body;
     S3.CacheControl := Some "max-age=31536000";
     S3.ETag := Some "etag-1";
     S3.LastModified := Some tt |}.

Definition request (path : string) (params : list (string * string))
    : Events.APIGatewayProxyRequest :=
  {| Events.Path := path;
     Events.QueryStringParameters := list_to_map params |}.

End Reference.

(* ===================================================================== *)
(** * Part IV: vocabulary of the specification                            *)
(* ===================================================================== *)

(** The status code of a run that returned. *)
Definition statusOf (o : Outcome) : option Z :=
  match o with
  | Value (resp, _) => Some (Events.StatusCode resp)
  | Panics _ => None
  end.

(** The body of the response of a run that returned. *)
Definition bodyOf (o : Outcome) : option string :=
  match o with
  | Value (resp, _) => Some (Events.Body resp)
  | Panics _ => None
  end.

(** The width and the height a request resolves to. *)
Definition widthOf (req : Events.APIGatewayProxyRequest) : Z :=
  fst (Strconv.Atoi (mapIndex (Events.QueryStringParameters req) "width")).
Definition heightOf (req : Events.APIGatewayProxyRequest) : Z :=
  fst (Strconv.Atoi (mapIndex (Events.QueryStringParameters req) "height")).

(** The configuration and the storage input the handler builds. *)
Definition configOf (req : Events.APIGatewayProxyRequest) : RequestConfig :=
  {| Width := widthOf req; Height := heightOf req;
     Bucket := bucketName; ObjectKey := Events.Path req |}.
Definition inputOf (req : Events.APIGatewayProxyRequest) : S3.GetObjectInput :=
  {| S3.Bucket := bucketName; S3.Key := Events.Path req |}.

(** The two checks of the validator, as the code makes them. *)
Definition hostAllowed (req : Events.APIGatewayProxyRequest) : bool :=
  Strings.Contains (Strings.Join ["images.story.io"] ",") (Events.Path req).
Definition dimensionsValid (req : Events.APIGatewayProxyRequest) : bool :=
  negb ((widthOf req <=? 0) && (heightOf req <=? 0)).
Definition validated (req : Events.APIGatewayProxyRequest) : Prop :=
  hostAllowed req = true /\ dimensionsValid req = true.

(** The allow-list as the specification reads it: the set of allowed
    hosts, and membership of the path in it. *)
Definition allowedHosts : gset string := {[ "images.story.io" ]}.

(** A storage failure "because the bucket or the key does not exist". *)
Definition isNotFound (err : error) : bool :=
  match err with
  | AwsError code _ =>
      String.eqb code S3.ErrCodeNoSuchBucket || String.eqb code S3.ErrCodeNoSuchKey
  | _ => false
  end.

(** A numeric parameter, as the specification reads it: an optional sign
    and at least one decimal digit, nothing else. *)
Definition isDigit (c : ascii) : bool := (48 <=? byte_val c) && (byte_val c <=? 57).

Fixpoint allDigits (s : string) : bool :=
  match s with
  | EmptyString => true
  | String c s' => isDigit c && allDigits s'
  end.

Definition unsignedPart (s : string) : string :=
  match s with
  | String c rest => if Ascii.eqb c "+" || Ascii.eqb c "-" then rest else s
  | EmptyString => EmptyString
  end.

Definition numeric (s : string) : bool :=
  match unsignedPart s with
  | EmptyString => false
  | u => allDigits u
  end.

(** The value of the longest run of digits [s] starts with, continuing [n]. *)
Fixpoint leadingValue (s : string) (n : Z) : Z :=
  match s with
  | String c s' => if isDigit c then leadingValue s' (n * 10 + (byte_val c - 48)) else n
  | EmptyString => n
  end.

(** The dimensions of an image. *)
Definition dims `{Imaging.Lib} (img : Imaging.Img) : Z * Z :=
  (Image.Dx (Imaging.Bounds img), Image.Dy (Imaging.Bounds img)).

(** The result of [resizer] once the image [out] goes to the encoder. *)
Definition encoded `{Imaging.Lib} (out : Imaging.Img) : string * option error :=
  match Imaging.Encode out Imaging.JPEG with
  | inr err => (EmptyString, Some err)
  | inl buf => (Base64.EncodeToString buf, None)
  end.

(** The image [resizer] hands to the JPEG encoder: the source, or what
    [imaging.Resize] returns, when it returns. *)
Definition outputImage `{Imaging.Lib} (config : RequestConfig) (srcImg : Imaging.Img)
    : Exec Imaging.Img :=
  if Image.X (Image.Max (Imaging.Bounds srcImg)) <=? Width config then Value srcImg
  else Imaging.Resize srcImg (Width config) (Height config) Imaging.Lanczos.

(** The success envelope, or the panic of a [nil] metadata pointer. *)
Definition envelope `{Time.Lib} (resp : S3.GetObjectOutput) (resize : string) : Outcome :=
  cacheControl ← deref (S3.CacheControl resp);
  lastModified ← deref (S3.LastModified resp);
  eTag ← deref (S3.ETag resp);
  mret ({| Events.Body := resize;
           Events.Headers :=
             <[ "Content-Type" := "image/jpeg" ]>
             (<[ "Cache-Control" := cacheControl ]>
             (<[ "Last-Modified" := Time.Format lastModified Http.TimeFormat ]>
             (<[ "ETag" := eTag ]> ∅)));
           Events.StatusCode := 200;
           Events.IsBase64Encoded := true |}, None).

(** Closed comparisons between evaluated integers. *)
Ltac evaluated := vm_compute; first [reflexivity | discriminate].

(** Objects, stores and configurations for runs on the reference codec. *)
Module Runs.
Import Reference.

(** A 500 by 400 picture stored under the one key that passes the check. *)
Definition picture : S3.GetObjectOutput := object (raster 0 500 400).
Definition store : S3.Client := bucket "images.story.io" picture.

(** The same picture without a Cache-Control header. *)
Definition bare : S3.GetObjectOutput :=
  {| S3.Body := raster 0 500 400;
     S3.CacheControl := None;
     S3.ETag := Some "etag-1";
     S3.LastModified := Some tt |}.

Definition config (w h : Z) : RequestConfig :=
  {| Bucket := bucketName; ObjectKey := "images.story.io";
     Width := w; Height := h |}.

Definition rect (x0 w h : Z) : Imaging.Img :=
  {| Image.Min := {| Image.X := x0; Image.Y := 0 |};
     Image.Max := {| Image.X := x0 + w; Image.Y := h |} |}.
End Runs.

(** ** Further vocabulary *)

(** The validator as one test. *)
Definition accepted (req : Events.APIGatewayProxyRequest) : bool :=
  hostAllowed req && dimensionsValid req.

(** The number a numeric parameter writes: its sign and the value of its
    digits; and the nearest [int64]. *)
Definition negative (s : string) : bool :=
  match s with
  | String c _ => Ascii.eqb c "-"
  | EmptyString => false
  end.

Definition signedValue (s : string) : Z :=
  let v := leadingValue (unsignedPart s) 0 in
  if negative s then - v else v.

Definition clamp64 (z : Z) : Z := Z.max (- 2 ^ 63) (Z.min (2 ^ 63 - 1) z).

(** The letters a base64 text is made of. *)
Definition isBase64Letter (c : ascii) : bool :=
  match Base64.decodeMap c with
  | Some _ => true
  | None => Ascii.eqb c Base64.StdPadding
  end.

Fixpoint allLetters (s : string) : bool :=
  match s with
  | EmptyString => true
  | String c s' => isBase64Letter c && allLetters s'
  end.

(** The storage calls of a trace, and whether the body was closed. *)
Definition callsOf (t : list Effect) : list S3.GetObjectInput :=
  flat_map (fun e => match e with CallGetObject i => [i] | CloseBody => [] end) t.

Definition closesOf (t : list Effect) : nat :=
  List.length (List.filter (fun e => match e with CloseBody => true | _ => false end) t).

(** Further objects for runs on the reference codec. *)
Module Cases.
Import Reference.

(** A picture with every header but Last-Modified. *)
Definition undated : S3.GetObjectOutput :=
  {| S3.Body := raster 0 500 400;
     S3.CacheControl := Some "max-age=31536000";
     S3.ETag := Some "etag-1";
     S3.LastModified := None |}.

(** A store in which every fetch fails with [err]. *)
Definition failing (err : error) : S3.Client := fun _ => inr err.

(** A store that holds [obj] under every key. *)
Definition holding (obj : S3.GetObjectOutput) : S3.Client := fun _ => inl obj.

End Cases.

(** The six ways a run of the handler can go, each with its result and
    its trace: refused by the validator, object not found, storage fault,
    panic inside the resizer, decode or encode fault, served (or the
    panic on a nil header). *)
Inductive Run `{IL : Imaging.Lib} `{TL : Time.Lib}
    (svc : S3.Client) (req : Events.APIGatewayProxyRequest)
    : Outcome * list Effect -> Prop :=
| RunRefused :
    accepted req = false ->
    Run svc req (Value (errResponse 400, None), [])
| RunNotFound (err : error) :
    accepted req = true -> svc (inputOf req) = inr err -> isNotFound err = true ->
    Run svc req (Value (errResponse 404, None), [CallGetObject (inputOf req)])
| RunStorageFault (err : error) :
    accepted req = true -> svc (inputOf req) = inr err -> isNotFound err = false ->
    Run svc req
      (Value (errResponse 500, Some (withMessage err "WIDTH AND HEIGHT INVALID DATA")),
       [CallGetObject (inputOf req)])
| RunResizePanic (obj : S3.GetObjectOutput) (e : RuntimeError) :
    accepted req = true -> svc (inputOf req) = inl obj ->
    resizer (S3.Body obj) (configOf req) = Panics e ->
    Run svc req (Panics e, [CallGetObject (inputOf req); CloseBody])
| RunResizeFault (obj : S3.GetObjectOutput) (s : string) (err : error) :
    accepted req = true -> svc (inputOf req) = inl obj ->
    resizer (S3.Body obj) (configOf req) = Value (s, Some err) ->
    Run svc req
      (Value (errResponse 500, Some (withMessage err "RESIZE PARSING ERROR")),
       [CallGetObject (inputOf req); CloseBody])
| RunServed (obj : S3.GetObjectOutput) (s : string) :
    accepted req = true -> svc (inputOf req) = inl obj ->
    resizer (S3.Body obj) (configOf req) = Value (s, None) ->
    Run svc req (envelope obj s, [CallGetObject (inputOf req); CloseBody]).

(* ===================================================================== *)
(** * Part V: properties                                                  *)
(* ===================================================================== *)

(** ** The library routines on a few inputs *)

Example Atoi_decimal : Strconv.Atoi "100" = (100, None).
Proof. reflexivity. Qed.

Example Atoi_negative : Strconv.Atoi "-80" = (-80, None).
Proof. reflexivity. Qed.

Example Atoi_empty : Strconv.Atoi EmptyString = (0, Some Strconv.ErrSyntax).
Proof. reflexivity. Qed.

Example Atoi_suffix : Strconv.Atoi "12px" = (0, Some Strconv.ErrSyntax).
Proof. reflexivity. Qed.

Example Atoi_largest : Strconv.Atoi "9223372036854775807" = (2 ^ 63 - 1, None).
Proof. reflexivity. Qed.

Example Atoi_too_large :
  Strconv.Atoi "9223372036854775808" = (2 ^ 63 - 1, Some Strconv.ErrRange).
Proof. reflexivity. Qed.

Example Atoi_too_small :
  Strconv.Atoi "-9223372036854775809" = (- 2 ^ 63, Some Strconv.ErrRange).
Proof. reflexivity. Qed.

Example Contains_inside : Strings.Contains "images.story.io" "story" = true.
Proof. reflexivity. Qed.

Example Contains_empty : Strings.Contains "images.story.io" EmptyString = true.
Proof. reflexivity. Qed.

Example Contains_slash : Strings.Contains "images.story.io" "/images.story.io" = false.
Proof. reflexivity. Qed.

Example Join_three : Strings.Join ["a"; "b"; "c"] "," = "a,b,c".
Proof. reflexivity. Qed.

Example EncodeToString_Man :
  (Base64.EncodeToString [x4d; x61; x6e], Base64.EncodeToString [x4d; x61],
   Base64.EncodeToString [x4d]) = ("TWFu", "TWE=", "TQ==").
Proof. reflexivity. Qed.

(** ** Bytes and bit fields *)

Lemma byteZ_range (b : byte) : 0 <= Base64.byteZ b < 256.
Proof.
  unfold Base64.byteZ. pose proof (Byte.to_N_bounded b). lia.
Qed.

Lemma byteOf_byteZ (b : byte) : Base64.byteOf (Base64.byteZ b) = b.
Proof.
  unfold Base64.byteOf. rewrite Z.mod_small by apply byteZ_range.
  unfold Base64.byteZ. rewrite N2Z.id, Byte.of_to_N. reflexivity.
Qed.

Lemma byteOf_mod (z : Z) : Base64.byteOf (z mod 256) = Base64.byteOf z.
Proof. unfold Base64.byteOf. rewrite Z.mod_mod by lia. reflexivity. Qed.

(** A field placed above [n] free bits is added, not merged. *)
Lemma lor_shiftl_add (hi lo n : Z) :
  0 <= n -> 0 <= lo < 2 ^ n -> Z.lor (Z.shiftl hi n) lo = hi * 2 ^ n + lo.
Proof.
  intros Hn Hlo.
  rewrite <- Z.shiftl_mul_pow2 by assumption.
  rewrite <- (Z.add_lor_land (Z.shiftl hi n) lo).
  assert (Hdisj : Z.land (Z.shiftl hi n) lo = 0).
  { apply Z.bits_inj'. intros i Hi.
    rewrite Z.land_spec, Z.bits_0.
    destruct (Z.lt_ge_cases i n) as [Hlt | Hge].
    - rewrite Z.shiftl_spec_low by assumption. reflexivity.
    - rewrite <- (Z.mod_small lo (2 ^ n)) by assumption.
      rewrite Z.mod_pow2_bits_high by lia. apply andb_false_r. }
  rewrite Hdisj. lia.
Qed.

Lemma land_63 (z : Z) : Z.land z 63 = z mod 64.
Proof. change 63 with (Z.ones 6). rewrite Z.land_ones by lia. reflexivity. Qed.

Lemma lor_mul_add (hi lo n : Z) :
  0 <= n -> 0 <= lo < 2 ^ n -> Z.lor (hi * 2 ^ n) lo = hi * 2 ^ n + lo.
Proof.
  intros Hn Hlo. rewrite <- Z.shiftl_mul_pow2 by assumption.
  rewrite lor_shiftl_add by assumption. rewrite Z.shiftl_mul_pow2 by assumption.
  reflexivity.
Qed.

(** The 24-bit group the encoder builds from three bytes. *)
Lemma pack_bytes (a b c : Z) :
  0 <= a < 256 -> 0 <= b < 256 -> 0 <= c < 256 ->
  Z.lor (Z.lor (Z.shiftl a 16) (Z.shiftl b 8)) c = a * 65536 + b * 256 + c.
Proof.
  intros Ha Hb Hc.
  rewrite !Z.shiftl_mul_pow2 by lia.
  rewrite (lor_mul_add a (b * 2 ^ 8) 16) by lia.
  replace (a * 2 ^ 16 + b * 2 ^ 8) with ((a * 256 + b) * 2 ^ 8) by lia.
  rewrite lor_mul_add by lia. lia.
Qed.

(** The 24-bit group the decoder builds from four letters. *)
Lemma quantum_value (s0 s1 s2 s3 : Z) :
  0 <= s1 < 64 -> 0 <= s2 < 64 -> 0 <= s3 < 64 ->
  Base64.quantum s0 s1 s2 s3 = s0 * 262144 + s1 * 4096 + s2 * 64 + s3.
Proof.
  intros H1 H2 H3. unfold Base64.quantum.
  rewrite !Z.shiftl_mul_pow2 by lia.
  rewrite (lor_mul_add s0 (s1 * 2 ^ 12) 18) by lia.
  replace (s0 * 2 ^ 18 + s1 * 2 ^ 12) with ((s0 * 64 + s1) * 2 ^ 12) by lia.
  rewrite (lor_mul_add _ (s2 * 2 ^ 6) 12) by lia.
  replace ((s0 * 64 + s1) * 2 ^ 12 + s2 * 2 ^ 6)
    with (((s0 * 64 + s1) * 64 + s2) * 2 ^ 6) by lia.
  rewrite lor_mul_add by lia. lia.
Qed.

Lemma sextet (val k : Z) :
  0 <= k -> Z.land (Z.shiftr val k) 63 = (val / 2 ^ k) mod 64.
Proof. intros Hk. rewrite land_63, Z.shiftr_div_pow2 by assumption. reflexivity. Qed.

Lemma sextet_range (z : Z) : 0 <= z mod 64 < 64.
Proof. apply Z.mod_pos_bound. lia. Qed.

(** Splitting a 24-bit group into sextets and joining them again. *)
Lemma quantum_of_sextets (val : Z) :
  0 <= val < 2 ^ 24 ->
  Base64.quantum (Z.land (Z.shiftr val 18) 63) (Z.land (Z.shiftr val 12) 63)
                 (Z.land (Z.shiftr val 6) 63) (Z.land val 63) = val.
Proof.
  intros Hv. rewrite !sextet by lia. rewrite land_63.
  rewrite quantum_value by apply sextet_range.
  change (2 ^ 18) with 262144. change (2 ^ 12) with 4096. change (2 ^ 6) with 64.
  change (2 ^ 24) with 16777216 in Hv.
  Z.div_mod_to_equations. lia.
Qed.

(** ** The alphabet *)

Lemma alphabet_inverse (i : Z) :
  0 <= i < 64 ->
  Base64.decodeMap (Base64.encode i) = Some i /\
  Ascii.eqb (Base64.encode i) Base64.StdPadding = false.
Proof.
  intros Hi.
  assert (exists n, (n < 64)%nat /\ i = Z.of_nat n) as (n & Hn & ->)
    by (exists (Z.to_nat i); lia).
  clear Hi.
  do 64 (destruct n as [| n]; [vm_compute; split; reflexivity |]).
  lia.
Qed.

Lemma decodeMap_sextet (z : Z) :
  Base64.decodeMap (Base64.encode (z mod 64)) = Some (z mod 64).
Proof. apply alphabet_inverse, sextet_range. Qed.

Lemma encode_sextet_not_pad (z : Z) :
  Ascii.eqb (Base64.encode (z mod 64)) Base64.StdPadding = false.
Proof. apply alphabet_inverse, sextet_range. Qed.

(** ** One step of the decoder *)

Lemma DecodeString_group (c0 c1 c2 c3 : ascii) (rest : string)
    (s0 s1 s2 s3 : Z) (tl : list byte) :
  Base64.decodeMap c0 = Some s0 -> Base64.decodeMap c1 = Some s1 ->
  Base64.decodeMap c2 = Some s2 -> Base64.decodeMap c3 = Some s3 ->
  Ascii.eqb c3 Base64.StdPadding = false ->
  Base64.DecodeString rest = Some tl ->
  Base64.DecodeString (String c0 (String c1 (String c2 (String c3 rest)))) =
  Some (Base64.byteOf (Z.shiftr (Base64.quantum s0 s1 s2 s3) 16)
        :: Base64.byteOf (Z.shiftr (Base64.quantum s0 s1 s2 s3) 8)
        :: Base64.byteOf (Base64.quantum s0 s1 s2 s3) :: tl).
Proof.
  intros H0 H1 H2 H3 Hpad Htl.
  cbn [Base64.DecodeString]. rewrite H0, H1, H2, H3, Hpad, Htl.
  destruct rest; reflexivity.
Qed.

(** ** Round trip *)

Lemma list_ind3 {A} (P : list A -> Prop) :
  P [] -> (forall a, P [a]) -> (forall a b, P [a; b]) ->
  (forall a b c l, P l -> P (a :: b :: c :: l)) ->
  forall l, P l.
Proof.
  intros H0 H1 H2 H3 l.
  enough (H : P l /\ (forall a, P (a :: l)) /\ (forall a b, P (a :: b :: l)))
    by apply H.
  induction l as [| x l (IH0 & IH1 & IH2)].
  - auto.
  - repeat split; auto.
Qed.

Theorem base64_roundtrip (src : list byte) :
  Base64.DecodeString (Base64.EncodeToString src) = Some src.
Proof.
  induction src as [| a | a b | a b c rest IH] using list_ind3.
  - reflexivity.
  - pose proof (byteZ_range a) as Ha.
    cbn [Base64.EncodeToString].
    set (val := Z.shiftl (Base64.byteZ a) 16).
    assert (Hval : val = Base64.byteZ a * 65536)
      by (unfold val; rewrite Z.shiftl_mul_pow2 by lia; reflexivity).
    pose proof (quantum_of_sextets val ltac:(lia)) as Hq.
    rewrite !sextet in * by lia. rewrite land_63 in Hq.
    assert (Hz2 : (val / 2 ^ 6) mod 64 = 0)
      by (change (2 ^ 6) with 64; Z.div_mod_to_equations; lia).
    assert (Hz3 : val mod 64 = 0) by (Z.div_mod_to_equations; lia).
    rewrite Hz2, Hz3 in Hq.
    cbn [Base64.DecodeString]. rewrite !decodeMap_sextet.
    change (Ascii.eqb Base64.StdPadding Base64.StdPadding) with true. cbv iota.
    rewrite Hq, Z.shiftr_div_pow2 by lia.
    replace (val / 2 ^ 16) with (Base64.byteZ a)
      by (change (2 ^ 16) with 65536; Z.div_mod_to_equations; lia).
    rewrite byteOf_byteZ. reflexivity.
  - pose proof (byteZ_range a) as Ha. pose proof (byteZ_range b) as Hb.
    cbn [Base64.EncodeToString].
    set (val := Z.lor _ _).
    assert (Hval : val = Base64.byteZ a * 65536 + Base64.byteZ b * 256).
    { unfold val. pose proof (pack_bytes (Base64.byteZ a) (Base64.byteZ b) 0
                                ltac:(lia) ltac:(lia) ltac:(lia)) as Hp.
      rewrite Z.lor_0_r in Hp. lia. }
    pose proof (quantum_of_sextets val ltac:(lia)) as Hq.
    rewrite !sextet in * by lia. rewrite land_63 in Hq.
    assert (Hz3 : val mod 64 = 0) by (Z.div_mod_to_equations; lia).
    rewrite Hz3 in Hq.
    cbn [Base64.DecodeString]. rewrite !decodeMap_sextet.
    change (Ascii.eqb Base64.StdPadding Base64.StdPadding) with true. cbv iota.
    rewrite encode_sextet_not_pad.
    rewrite Hq, !Z.shiftr_div_pow2 by lia.
    replace (val / 2 ^ 16) with (Base64.byteZ a)
      by (change (2 ^ 16) with 65536; Z.div_mod_to_equations; lia).
    rewrite <- (byteOf_mod (val / 2 ^ 8)).
    replace ((val / 2 ^ 8) mod 256) with (Base64.byteZ b)
      by (change (2 ^ 8) with 256; Z.div_mod_to_equations; lia).
    rewrite !byteOf_byteZ. reflexivity.
  - pose proof (byteZ_range a) as Ha. pose proof (byteZ_range b) as Hb.
    pose proof (byteZ_range c) as Hc.
    cbn [Base64.EncodeToString].
    set (val := Z.lor _ _).
    assert (Hval : val = Base64.byteZ a * 65536 + Base64.byteZ b * 256 + Base64.byteZ c)
      by (unfold val; apply pack_bytes; assumption).
    pose proof (quantum_of_sextets val ltac:(lia)) as Hq.
    rewrite !sextet in * by lia. rewrite land_63 in *.
    erewrite DecodeString_group;
      [ | apply decodeMap_sextet | apply decodeMap_sextet | apply decodeMap_sextet
        | apply decodeMap_sextet | apply encode_sextet_not_pad | exact IH ].
    rewrite Hq, !Z.shiftr_div_pow2 by lia.
    replace (val / 2 ^ 16) with (Base64.byteZ a)
      by (change (2 ^ 16) with 65536; Z.div_mod_to_equations; lia).
    rewrite <- (byteOf_mod (val / 2 ^ 8)), <- (byteOf_mod val).
    replace ((val / 2 ^ 8) mod 256) with (Base64.byteZ b)
      by (change (2 ^ 8) with 256; Z.div_mod_to_equations; lia).
    replace (val mod 256) with (Base64.byteZ c) by (Z.div_mod_to_equations; lia).
    rewrite !byteOf_byteZ. reflexivity.
Qed.

Corollary EncodeToString_inj (x y : list byte) :
  Base64.EncodeToString x = Base64.EncodeToString y -> x = y.
Proof.
  intros H. apply (f_equal Base64.DecodeString) in H.
  rewrite !base64_roundtrip in H. congruence.
Qed.

(** ** strconv.Atoi on what is not a number *)

Lemma byte_val_range (c : ascii) : 0 <= byte_val c < 256.
Proof. unfold byte_val. pose proof (N_ascii_bounded c). lia. Qed.

Lemma atoiFastLoop_not_digits (s : string) :
  allDigits s = false -> forall n, Strconv.atoiFastLoop s n = None.
Proof.
  induction s as [| c s IH]; intros Hs n; [discriminate |].
  cbn [allDigits] in Hs. cbn [Strconv.atoiFastLoop].
  pose proof (byte_val_range c) as Hc.
  unfold isDigit in Hs.
  destruct (9 <? (byte_val c - 48) mod 256) eqn:Hch; [reflexivity |].
  apply Z.ltb_ge in Hch.
  assert (Hd : (48 <=? byte_val c) && (byte_val c <=? 57) = true).
  { apply andb_true_iff. split; [apply Z.leb_le | apply Z.leb_le];
      Z.div_mod_to_equations; lia. }
  rewrite Hd in Hs. apply IH. exact Hs.
Qed.

Lemma leadingValue_ge (s : string) :
  forall n, 0 <= n -> n <= leadingValue s n.
Proof.
  induction s as [| c s IH]; intros n Hn; cbn [leadingValue]; [lia |].
  unfold isDigit. destruct ((48 <=? byte_val c) && (byte_val c <=? 57)) eqn:Hd; [| lia].
  apply andb_true_iff in Hd as [H1 H2]. apply Z.leb_le in H1, H2.
  specialize (IH (n * 10 + (byte_val c - 48)) ltac:(lia)). lia.
Qed.

Lemma parseUintLoop_not_digits (s : string) :
  allDigits s = false ->
  forall n, 0 <= n -> leadingValue s n <= Strconv.maxUint64 ->
  Strconv.parseUintLoop s n = (0, Some Strconv.ErrSyntax).
Proof.
  induction s as [| c s IH]; intros Hs n Hn Hmax; [discriminate |].
  cbn [allDigits] in Hs. cbn [leadingValue] in Hmax.
  cbn [Strconv.parseUintLoop]. unfold isDigit in *.
  destruct ((48 <=? byte_val c) && (byte_val c <=? 57)) eqn:Hd; [| reflexivity].
  apply andb_true_iff in Hd as [H1 H2]. apply Z.leb_le in H1, H2.
  cbn [andb] in Hs.
  pose proof (leadingValue_ge s (n * 10 + (byte_val c - 48)) ltac:(lia)) as Hge.
  unfold Strconv.maxUint64 in *.
  change (2 ^ 64 - 1) with 18446744073709551615 in *.
  change (18446744073709551615 / 10 + 1) with 1844674407370955162.
  change (2 ^ 64) with 18446744073709551616.
  destruct (1844674407370955162 <=? n) eqn:Hcut; [apply Z.leb_le in Hcut; lia |].
  rewrite Z.mod_small by lia.
  destruct (n * 10 + (byte_val c - 48) <? n * 10) eqn:Hlt;
    [apply Z.ltb_lt in Hlt; lia |].
  destruct (18446744073709551615 <? n * 10 + (byte_val c - 48)) eqn:Hgt;
    [apply Z.ltb_lt in Hgt; lia |].
  cbn [orb]. apply IH; [exact Hs | lia | exact Hmax].
Qed.

Lemma ParseUint_not_digits (s : string) :
  (s = EmptyString \/ allDigits s = false) ->
  leadingValue s 0 <= Strconv.maxUint64 ->
  Strconv.ParseUint s = (0, Some Strconv.ErrSyntax).
Proof.
  intros [-> | Hs] Hmax; [reflexivity |].
  destruct s as [| c s]; [reflexivity |].
  unfold Strconv.ParseUint. apply parseUintLoop_not_digits; [exact Hs | lia | exact Hmax].
Qed.

Lemma numeric_false (s : string) :
  numeric s = false -> unsignedPart s = EmptyString \/ allDigits (unsignedPart s) = false.
Proof.
  unfold numeric. destruct (unsignedPart s); [left; reflexivity | right; assumption].
Qed.

(** A value that is not a number, and whose leading digits stay within
    [uint64], is a syntax error, and [Atoi] returns 0 with it. *)
Lemma Atoi_not_numeric (v : string) :
  numeric v = false ->
  leadingValue (unsignedPart v) 0 <= Strconv.maxUint64 ->
  Strconv.Atoi v = (0, Some Strconv.ErrSyntax).
Proof.
  intros Hnum Hmax. apply numeric_false in Hnum.
  unfold Strconv.Atoi.
  destruct ((0 <? Strconv.strlen v) && (Strconv.strlen v <? 19)) eqn:Hfast.
  - destruct v as [| c0 rest]; [reflexivity |].
    cbn [unsignedPart] in Hnum, Hmax.
    rewrite (orb_comm (Ascii.eqb c0 "-")).
    destruct (Ascii.eqb c0 "+" || Ascii.eqb c0 "-") eqn:Hsign.
    + destruct Hnum as [-> | Hnd]; [reflexivity |].
      cbn [andb]. destruct (Strconv.strlen rest <? 1); [reflexivity |].
      rewrite atoiFastLoop_not_digits by exact Hnd. reflexivity.
    + destruct Hnum as [Hnil | Hnd]; [discriminate |].
      cbn [andb]. rewrite atoiFastLoop_not_digits by exact Hnd. reflexivity.
  - destruct v as [| c0 rest]; [reflexivity |].
    cbn [unsignedPart] in Hnum, Hmax. unfold Strconv.ParseInt.
    destruct (Ascii.eqb c0 "+" || Ascii.eqb c0 "-") eqn:Hsign;
      rewrite (ParseUint_not_digits _ Hnum Hmax); reflexivity.
Qed.

Lemma leadingValue_bound (s : string) :
  forall n, 0 <= n ->
  leadingValue s n <= (n + 1) * 10 ^ Z.of_nat (String.length s) - 1.
Proof.
  induction s as [| c s IH]; intros n Hn.
  - cbn. lia.
  - cbn [leadingValue String.length]. rewrite Nat2Z.inj_succ, Z.pow_succ_r by lia.
    assert (Hp : 0 < 10 ^ Z.of_nat (String.length s)) by (apply Z.pow_pos_nonneg; lia).
    unfold isDigit.
    destruct ((48 <=? byte_val c) && (byte_val c <=? 57)) eqn:Hd.
    + apply andb_true_iff in Hd as [H1 H2]. apply Z.leb_le in H1, H2.
      specialize (IH (n * 10 + (byte_val c - 48)) ltac:(lia)). nia.
    + nia.
Qed.

(** In particular every value of at most 19 bytes. *)
Lemma leadingValue_short (v : string) :
  (String.length v <= 19)%nat -> leadingValue (unsignedPart v) 0 <= Strconv.maxUint64.
Proof.
  intros Hlen.
  assert (Hu : (String.length (unsignedPart v) <= 19)%nat).
  { destruct v as [| c rest]; [cbn; lia |].
    cbn [unsignedPart]. destruct (_ || _); cbn [String.length] in *; lia. }
  pose proof (leadingValue_bound (unsignedPart v) 0 ltac:(lia)) as Hb.
  assert (Hpow : 10 ^ Z.of_nat (String.length (unsignedPart v)) <= 10 ^ 19)
    by (apply Z.pow_le_mono_r; lia).
  unfold Strconv.maxUint64.
  change (2 ^ 64 - 1) with 18446744073709551615.
  change (10 ^ 19) with 10000000000000000000 in Hpow. lia.
Qed.

(** ** The paths of the program *)

Section Paths.
Context `{IL : Imaging.Lib} `{TL : Time.Lib}.

(** ** The paths of [resizer] *)

Lemma resizer_eq (req : list byte) (config : RequestConfig) :
  resizer req config =
  match Imaging.Decode req with
  | inr err => Value (EmptyString, Some err)
  | inl srcImg =>
      match outputImage config srcImg with
      | Panics e => Panics e
      | Value out => Value (encoded out)
      end
  end.
Proof.
  unfold resizer, outputImage, encoded.
  destruct (Imaging.Decode req) as [srcImg | err]; [| reflexivity].
  destruct (_ <=? _).
  - destruct (Imaging.Encode _ _); reflexivity.
  - destruct (Imaging.Resize _ _ _ _) as [dst | e]; [| reflexivity].
    destruct (Imaging.Encode _ _); reflexivity.
Qed.

(** ** The paths of [handler] *)

Lemma handler_eq (svc : S3.Client) (req : Events.APIGatewayProxyRequest) :
  handler svc req =
  if negb (hostAllowed req) then
    (Value (errResponse 400, None), [])
  else if negb (dimensionsValid req) then
    (Value (errResponse 400, None), [])
  else
    match svc (inputOf req) with
    | inr err =>
        (Value (if isNotFound err then (errResponse 404, None)
                else (errResponse 500,
                      Some (withMessage err "WIDTH AND HEIGHT INVALID DATA"))),
         [CallGetObject (inputOf req)])
    | inl resp =>
        (match resizer (S3.Body resp) (configOf req) with
         | Panics e => Panics e
         | Value (_, Some err) =>
             Value (errResponse 500, Some (withMessage err "RESIZE PARSING ERROR"))
         | Value (resize, None) => envelope resp resize
         end,
         [CallGetObject (inputOf req); CloseBody])
    end.
Proof.
  unfold handler, hostAllowed, dimensionsValid. rewrite negb_involutive.
  fold (widthOf req) (heightOf req).
  destruct (negb _); [reflexivity |].
  destruct (_ && _); [reflexivity |].
  change {| S3.Bucket := _; S3.Key := _ |} with (inputOf req).
  destruct (svc (inputOf req)) as [resp | err].
  - change {| Width := _; Height := _; Bucket := _; ObjectKey := _ |} with (configOf req).
    destruct (resizer _ _) as [[resize [err |]] | e]; reflexivity.
  - destruct err as [code msg | msg | cause msg]; try reflexivity.
    cbn [isNotFound]. destruct (_ || _); reflexivity.
Qed.

Lemma handler_host_rejected svc req :
  hostAllowed req = false ->
  handler svc req = (Value (errResponse 400, None), []).
Proof. intros H. rewrite handler_eq, H. reflexivity. Qed.

Lemma handler_dimensions_rejected svc req :
  dimensionsValid req = false ->
  handler svc req = (Value (errResponse 400, None), []).
Proof.
  intros H. rewrite handler_eq, H. destruct (negb (hostAllowed req)); reflexivity.
Qed.

Lemma handler_validated svc req :
  validated req ->
  handler svc req =
  match svc (inputOf req) with
  | inr err =>
      (Value (if isNotFound err then (errResponse 404, None)
              else (errResponse 500,
                    Some (withMessage err "WIDTH AND HEIGHT INVALID DATA"))),
       [CallGetObject (inputOf req)])
  | inl resp =>
      (match resizer (S3.Body resp) (configOf req) with
       | Panics e => Panics e
       | Value (_, Some err) =>
           Value (errResponse 500, Some (withMessage err "RESIZE PARSING ERROR"))
       | Value (resize, None) => envelope resp resize
       end,
       [CallGetObject (inputOf req); CloseBody])
  end.
Proof. intros [Hh Hd]. rewrite handler_eq, Hh, Hd. reflexivity. Qed.

End Paths.

(** ** Dimensions after [imaging.Resize] *)

Lemma Rect_origin_dims (w h : Z) :
  0 <= w -> 0 <= h ->
  Image.Dx (Image.Rect 0 0 w h) = w /\ Image.Dy (Image.Rect 0 0 w h) = h.
Proof.
  intros Hw Hh. unfold Image.Rect, Image.Dx, Image.Dy.
  destruct (w <? 0) eqn:Ew; [apply Z.ltb_lt in Ew; lia |].
  destruct (h <? 0) eqn:Eh; [apply Z.ltb_lt in Eh; lia |].
  cbn. lia.
Qed.

Section Resize.
Context `{IL : Imaging.Lib}.

(** Past its early returns, [Resize] is its resampling passes. *)
Lemma Resize_resample (img : Imaging.Img) (w h : Z) (f : Imaging.ResampleFilter) :
  0 <= w -> 0 <= h -> 0 < w \/ 0 < h ->
  0 < Image.Dx (Imaging.Bounds img) -> 0 < Image.Dy (Imaging.Bounds img) ->
  Imaging.Resize img w h f =
  let srcW := Image.Dx (Imaging.Bounds img) in
  let srcH := Image.Dy (Imaging.Bounds img) in
  let dstW := if w =? 0 then Imaging.scaleDim h srcW srcH else w in
  let dstH := if h =? 0 then Imaging.scaleDim dstW srcH srcW else h in
  Imaging.resample img dstW dstH f.
Proof.
  intros Hw Hh Hpos Hsw Hsh. unfold Imaging.Resize.
  destruct (w <? 0) eqn:E1; [apply Z.ltb_lt in E1; lia |].
  destruct (h <? 0) eqn:E2; [apply Z.ltb_lt in E2; lia |].
  destruct ((w =? 0) && (h =? 0)) eqn:E3;
    [apply andb_true_iff in E3 as [E3 E4]; apply Z.eqb_eq in E3, E4; lia |].
  destruct (Image.Dx _ <=? 0) eqn:E5; [apply Z.leb_le in E5; lia |].
  destruct (Image.Dy _ <=? 0) eqn:E6; [apply Z.leb_le in E6; lia |].
  reflexivity.
Qed.

(** Both sides given: a result has exactly the sides asked for. *)
Lemma Resize_exact (img : Imaging.Img) (w h : Z) (f : Imaging.ResampleFilter)
    (out : Imaging.Img) :
  0 < w -> 0 < h ->
  0 < Image.Dx (Imaging.Bounds img) -> 0 < Image.Dy (Imaging.Bounds img) ->
  Imaging.Resize img w h f = Value out ->
  Imaging.Bounds out = Image.Rect 0 0 w h.
Proof.
  intros Hw Hh Hsw Hsh. rewrite Resize_resample by lia. cbv zeta.
  destruct (w =? 0) eqn:E3; [apply Z.eqb_eq in E3; lia |].
  destruct (h =? 0) eqn:E4; [apply Z.eqb_eq in E4; lia |].
  apply Imaging.Bounds_resample; assumption.
Qed.

(** Height 0: the height follows the aspect ratio, and is at least 1. *)
Lemma Resize_height_zero (img : Imaging.Img) (w : Z) (f : Imaging.ResampleFilter)
    (out : Imaging.Img) :
  0 < w < 2 ^ 31 ->
  0 < Image.Dx (Imaging.Bounds img) < 2 ^ 31 ->
  0 < Image.Dy (Imaging.Bounds img) < 2 ^ 31 ->
  let h := Imaging.scaleDim w (Image.Dy (Imaging.Bounds img))
                            (Image.Dx (Imaging.Bounds img)) in
  1 <= h /\
  (Imaging.Resize img w 0 f = Value out ->
   Imaging.Bounds out = Image.Rect 0 0 w h).
Proof.
  intros Hw Hsw Hsh h.
  assert (Hh : 1 <= h) by (apply Imaging.scaleDim_min; assumption).
  split; [exact Hh |]. rewrite Resize_resample by lia. cbv zeta.
  destruct (w =? 0) eqn:E3; [apply Z.eqb_eq in E3; lia |].
  change (0 =? 0) with true. cbv iota.
  apply Imaging.Bounds_resample; lia.
Qed.

(** ** The two branches of [resizer] *)

Lemma resizer_pass_through (req : list byte) (config : RequestConfig) src :
  Imaging.Decode req = inl src ->
  Image.X (Image.Max (Imaging.Bounds src)) <= Width config ->
  resizer req config = Value (encoded src).
Proof.
  intros Hdec Hle. rewrite resizer_eq, Hdec. unfold outputImage.
  apply Z.leb_le in Hle. rewrite Hle. reflexivity.
Qed.

(** For an image whose bounds start at column 0 the right edge is the
    width, and the test of the code is the test on the width. *)
Lemma resizer_pass_through_at_origin (req : list byte) (config : RequestConfig) src :
  Imaging.Decode req = inl src ->
  Image.X (Image.Min (Imaging.Bounds src)) = 0 ->
  Image.Dx (Imaging.Bounds src) <= Width config ->
  resizer req config = Value (encoded src).
Proof.
  intros Hdec Hmin Hle.
  apply resizer_pass_through; [exact Hdec |]. unfold Image.Dx in Hle. lia.
Qed.

(** Beyond the requested width the image goes through [imaging.Resize]:
    the resizer panics where it panics, and encodes what it returns. *)
Lemma resizer_resizes (req : list byte) (config : RequestConfig) src :
  Imaging.Decode req = inl src ->
  Width config < Image.X (Image.Max (Imaging.Bounds src)) ->
  resizer req config =
  match Imaging.Resize src (Width config) (Height config) Imaging.Lanczos with
  | Panics e => Panics e
  | Value dst => Value (encoded dst)
  end.
Proof.
  intros Hdec Hlt. rewrite resizer_eq, Hdec. unfold outputImage.
  apply Z.leb_gt in Hlt. rewrite Hlt. reflexivity.
Qed.

(** The resizer panics only there: inside [imaging.Resize]. *)
Lemma resizer_panics (req : list byte) (config : RequestConfig) (e : RuntimeError) :
  resizer req config = Panics e <->
  exists src, Imaging.Decode req = inl src /\
              Width config < Image.X (Image.Max (Imaging.Bounds src)) /\
              Imaging.Resize src (Width config) (Height config) Imaging.Lanczos
              = Panics e.
Proof.
  rewrite resizer_eq. unfold outputImage.
  destruct (Imaging.Decode req) as [src | err]; split.
  - destruct (Z.leb_spec (Image.X (Image.Max (Imaging.Bounds src))) (Width config));
      [discriminate |].
    destruct (Imaging.Resize _ _ _ _) as [dst | p] eqn:Hres; [discriminate |].
    intros [= ->]. exists src. auto.
  - intros (src' & [= <-] & Hlt & Hres).
    apply Z.leb_gt in Hlt. rewrite Hlt, Hres. reflexivity.
  - discriminate.
  - intros (src & H & _). discriminate.
Qed.

(** [imaging.Resize] can panic only past its early returns: with sides
    that are not negative and not both 0, on a source that is not empty. *)
Lemma Resize_panics (img : Imaging.Img) (w h : Z) (f : Imaging.ResampleFilter)
    (e : RuntimeError) :
  Imaging.Resize img w h f = Panics e ->
  0 <= w /\ 0 <= h /\ (0 < w \/ 0 < h) /\
  0 < Image.Dx (Imaging.Bounds img) /\ 0 < Image.Dy (Imaging.Bounds img).
Proof.
  unfold Imaging.Resize.
  destruct (Z.ltb_spec w 0); [discriminate |].
  destruct (Z.ltb_spec h 0); [discriminate |].
  destruct (Z.eqb_spec w 0), (Z.eqb_spec h 0); cbn [orb andb]; try discriminate;
    destruct (Z.leb_spec (Image.Dx (Imaging.Bounds img)) 0); try discriminate;
    destruct (Z.leb_spec (Image.Dy (Imaging.Bounds img)) 0); try discriminate;
    cbn [orb]; intros _; lia.
Qed.

Lemma resizer_error (req : list byte) (config : RequestConfig) (err : error) :
  (exists s, resizer req config = Value (s, Some err)) <->
  Imaging.Decode req = inr err \/
  exists src out, Imaging.Decode req = inl src /\
                  outputImage config src = Value out /\
                  Imaging.Encode out Imaging.JPEG = inr err.
Proof.
  rewrite resizer_eq. unfold encoded.
  destruct (Imaging.Decode req) as [src | e].
  - destruct (outputImage config src) as [out | p] eqn:Hout.
    + destruct (Imaging.Encode out Imaging.JPEG) as [buf | e] eqn:Henc; split.
      * intros [s H]. discriminate.
      * intros [H | (src' & out' & H & H' & H'')]; [discriminate |].
        injection H as <-. rewrite Hout in H'. injection H' as <-. congruence.
      * intros [s [= _ ->]]. right. exists src, out. auto.
      * intros [H | (src' & out' & H & H' & H'')]; [discriminate |].
        injection H as <-. rewrite Hout in H'. injection H' as <-.
        rewrite Henc in H''. injection H'' as ->. eauto.
    + split.
      * intros [s H]. discriminate.
      * intros [H | (src' & out' & H & H' & _)]; [discriminate |].
        injection H as <-. rewrite Hout in H'. discriminate.
  - split.
    + intros [s [= _ ->]]. left. reflexivity.
    + intros [[= ->] | (src & out & H & _)]; [eauto | discriminate].
Qed.

End Resize.

Lemma isNotFound_spec (err : error) :
  isNotFound err = true <->
  exists msg, err = AwsError S3.ErrCodeNoSuchBucket msg \/
              err = AwsError S3.ErrCodeNoSuchKey msg.
Proof.
  split.
  - destruct err as [code msg | msg | cause msg]; cbn [isNotFound]; try discriminate.
    intros H. exists msg. apply orb_true_iff in H as [H | H];
      apply String.eqb_eq in H; subst code; [left | right]; reflexivity.
  - intros (msg & [-> | ->]); reflexivity.
Qed.

Lemma envelope_value `{TL : Time.Lib} (obj : S3.GetObjectOutput) (resize : string)
    (resp : Events.APIGatewayProxyResponse) (err : option error) :
  envelope obj resize = Value (resp, err) ->
  Events.StatusCode resp = 200 /\ Events.Body resp = resize /\
  Events.IsBase64Encoded resp = true /\ err = None /\
  is_Some (S3.CacheControl obj) /\ is_Some (S3.ETag obj) /\
  is_Some (S3.LastModified obj).
Proof.
  unfold envelope.
  destruct (S3.CacheControl obj), (S3.LastModified obj), (S3.ETag obj);
    cbn; intros H; try discriminate.
  injection H as <- <-. cbn. repeat split; eauto.
Qed.

Lemma envelope_panics `{TL : Time.Lib} (obj : S3.GetObjectOutput) (resize : string) :
  S3.CacheControl obj = None \/ S3.ETag obj = None ->
  envelope obj resize = Panics NilPointerDereference.
Proof.
  unfold envelope. intros [H | H]; rewrite H.
  - reflexivity.
  - destruct (S3.CacheControl obj), (S3.LastModified obj); reflexivity.
Qed.

Section HandlerProperties.
Context `{IL : Imaging.Lib} `{TL : Time.Lib}.

(** C2, amended.  A decoded image that is not empty, starts at or right
    of column 0 and is strictly wider than the requested width, with a
    positive requested width AND a positive requested height, is resized
    with [imaging.Resize(src, w, h, Lanczos)]: where that call panics
    (sides too large for its buffers) the resizer panics with it and
    nothing is encoded; where it returns, its result is what goes to the
    JPEG encoder, and the sides of that result are exactly (w, h). *)
Theorem resizer_resizes_exactly (req : list byte) (config : RequestConfig) src :
  Imaging.Decode req = inl src ->
  0 <= Image.X (Image.Min (Imaging.Bounds src)) ->
  0 < Image.Dy (Imaging.Bounds src) ->
  Width config < Image.Dx (Imaging.Bounds src) ->
  0 < Width config -> 0 < Height config ->
  resizer req config =
    match Imaging.Resize src (Width config) (Height config) Imaging.Lanczos with
    | Panics e => Panics e
    | Value dst => Value (encoded dst)
    end /\
  (forall dst,
     Imaging.Resize src (Width config) (Height config) Imaging.Lanczos = Value dst ->
     resizer req config = Value (encoded dst) /\
     dims dst = (Width config, Height config)).
Proof.
  intros Hdec Hmin Hsh Hwide Hw Hh.
  assert (Hres : resizer req config =
    match Imaging.Resize src (Width config) (Height config) Imaging.Lanczos with
    | Panics e => Panics e
    | Value dst => Value (encoded dst)
    end)
    by (apply resizer_resizes; [exact Hdec |]; unfold Image.Dx in Hwide; lia).
  split; [exact Hres |].
  intros dst Hdst. split; [rewrite Hres, Hdst; reflexivity |].
  unfold dims.
  rewrite (Resize_exact src (Width config) (Height config) Imaging.Lanczos dst)
    by (assumption || lia).
  destruct (Rect_origin_dims (Width config) (Height config)) as [-> ->]; [lia | lia |].
  reflexivity.
Qed.

(** C3 (the code differs): the path "story.io" is not a member of the
    set of allowed hosts, yet it passes the check of line 91, a
    substring test against "images.story.io": the storage is queried
    and the status is not 400, whatever the storage holds. *)
Theorem handler_substring_path_reaches_storage (svc : S3.Client) :
  let req := Reference.request "story.io" [("width", "100"); ("height", "80")] in
  ("story.io" ∉ allowedHosts) /\
  In (CallGetObject {| S3.Bucket := bucketName; S3.Key := "story.io" |})
     (snd (handler svc req)) /\
  statusOf (fst (handler svc req)) <> Some 400.
Proof.
  intros req.
  assert (Hv : validated req) by (split; reflexivity).
  split; [unfold allowedHosts; rewrite elem_of_singleton; discriminate |].
  rewrite (handler_validated svc req Hv).
  change (inputOf req) with {| S3.Bucket := bucketName; S3.Key := "story.io" |}.
  destruct (svc _) as [obj | err].
  - split; [left; reflexivity |]. cbn [fst].
    destruct (resizer _ _) as [[resize [e |]] | p]; [discriminate | | discriminate].
    unfold envelope.
    destruct (S3.CacheControl obj), (S3.LastModified obj), (S3.ETag obj);
      discriminate.
  - split; [left; reflexivity |]. cbn [fst].
    destruct (isNotFound err); discriminate.
Qed.

(** C4 (the code differs): scenario B is answered 400 before the storage
    is looked at.  The path "/images.story.io" does not occur inside
    "images.story.io", so the check of line 91 fails, with any storage
    and any image. *)
Theorem handler_rejects_scenario_B (svc : S3.Client) :
  let req := Reference.request "/images.story.io"
               [("width", "100"); ("height", "80")] in
  widthOf req = 100 /\ heightOf req = 80 /\
  handler svc req = (Value (errResponse 400, None), []) /\
  statusOf (fst (handler svc req)) = Some 400.
Proof.
  intros req.
  assert (H : handler svc req = (Value (errResponse 400, None), []))
    by (apply handler_host_rejected; reflexivity).
  rewrite H. repeat split; reflexivity.
Qed.

(** C5.  When the width and the height of a request both resolve to a
    value that is zero or negative, the status of the response is 400,
    for every path and every state of the storage. *)
Theorem handler_nonpositive_dimensions (svc : S3.Client)
    (req : Events.APIGatewayProxyRequest) :
  widthOf req <= 0 -> heightOf req <= 0 ->
  statusOf (fst (handler svc req)) = Some 400.
Proof.
  intros Hw Hh.
  rewrite handler_dimensions_rejected; [reflexivity |].
  unfold dimensionsValid.
  apply Z.leb_le in Hw, Hh. rewrite Hw, Hh. reflexivity.
Qed.

(** C6.  For a validated request whose fetch fails: a missing bucket or
    key ([NoSuchBucket], [NoSuchKey]) gives status 404, any other fault
    gives status 500, and in both cases the body is the standard phrase
    of the status, "Not Found" and "Internal Server Error". *)
Theorem handler_storage_failure (svc : S3.Client)
    (req : Events.APIGatewayProxyRequest) (err : error) :
  validated req -> svc (inputOf req) = inr err ->
  let out := fst (handler svc req) in
  ((exists msg, err = AwsError S3.ErrCodeNoSuchBucket msg \/
                err = AwsError S3.ErrCodeNoSuchKey msg) ->
   statusOf out = Some 404 /\ bodyOf out = Some (Http.StatusText 404) /\
   Http.StatusText 404 = "Not Found") /\
  ((forall msg, err <> AwsError S3.ErrCodeNoSuchBucket msg /\
                err <> AwsError S3.ErrCodeNoSuchKey msg) ->
   statusOf out = Some 500 /\ bodyOf out = Some (Http.StatusText 500) /\
   Http.StatusText 500 = "Internal Server Error").
Proof.
  intros Hv Hsvc out. unfold out.
  rewrite (handler_validated svc req Hv), Hsvc. cbn [fst]. split.
  - intros Hnf. apply isNotFound_spec in Hnf. rewrite Hnf.
    repeat split; reflexivity.
  - intros Hother.
    destruct (isNotFound err) eqn:Hnf.
    + apply isNotFound_spec in Hnf as (msg & Hmsg).
      destruct (Hother msg) as [H1 H2]. destruct Hmsg; contradiction.
    + repeat split; reflexivity.
Qed.

(** C9.  After a successful fetch and resize the envelope is built only
    if the metadata pointers are there: when [CacheControl] or [ETag] is
    nil the handler panics with a nil-pointer dereference and returns
    no envelope; a run that did return the success envelope had both. *)
Theorem handler_nil_metadata_panics (svc : S3.Client)
    (req : Events.APIGatewayProxyRequest) (obj : S3.GetObjectOutput)
    (resize : string) :
  validated req -> svc (inputOf req) = inl obj ->
  resizer (S3.Body obj) (configOf req) = Value (resize, None) ->
  (S3.CacheControl obj = None \/ S3.ETag obj = None ->
   fst (handler svc req) = Panics NilPointerDereference) /\
  (forall resp err, fst (handler svc req) = Value (resp, err) ->
   is_Some (S3.CacheControl obj) /\ is_Some (S3.ETag obj)).
Proof.
  intros Hv Hsvc Hres.
  rewrite (handler_validated svc req Hv), Hsvc, Hres. cbn [fst]. split.
  - apply envelope_panics.
  - intros resp err H. apply envelope_value in H. tauto.
Qed.

(** C10.  The second result of the handler.  On a validation failure
    (host not allowed, or dimensions invalid) it is nil, because
    [errors.WithMessage] of a nil cause is nil, and the 400 envelope is
    all there is; on a storage failure other than not-found, and on a
    decode or encode failure (of the source, or of the image
    [imaging.Resize] returned), it is a non-nil error next to the 500
    envelope. *)
Theorem handler_error_values (svc : S3.Client)
    (req : Events.APIGatewayProxyRequest) :
  (forall msg, Errors.WithMessage None msg = None) /\
  (hostAllowed req = false \/ dimensionsValid req = false ->
   fst (handler svc req) = Value (errResponse 400, None)) /\
  (forall err, validated req -> svc (inputOf req) = inr err ->
   isNotFound err = false ->
   exists e, fst (handler svc req) = Value (errResponse 500, Some e)) /\
  (forall obj err, validated req -> svc (inputOf req) = inl obj ->
   (Imaging.Decode (S3.Body obj) = inr err \/
    exists src out, Imaging.Decode (S3.Body obj) = inl src /\
      outputImage (configOf req) src = Value out /\
      Imaging.Encode out Imaging.JPEG = inr err) ->
   exists e, fst (handler svc req) = Value (errResponse 500, Some e)).
Proof.
  split; [reflexivity |]. split; [| split].
  - intros [H | H].
    + rewrite handler_host_rejected by exact H. reflexivity.
    + rewrite handler_dimensions_rejected by exact H. reflexivity.
  - intros err Hv Hsvc Hnf.
    rewrite (handler_validated svc req Hv), Hsvc, Hnf. cbn [fst]. eauto.
  - intros obj err Hv Hsvc Hfail.
    apply (resizer_error _ (configOf req)) in Hfail as [s Hres].
    rewrite (handler_validated svc req Hv), Hsvc, Hres. cbn [fst]. eauto.
Qed.

End HandlerProperties.

Lemma mapIndex_absent (m : gmap string string) (k : string) :
  m !! k = None -> mapIndex m k = EmptyString.
Proof. intros H. unfold mapIndex. rewrite H. reflexivity. Qed.

Lemma mapIndex_present (m : gmap string string) (k v : string) :
  m !! k = Some v -> mapIndex m k = v.
Proof. intros H. unfold mapIndex. rewrite H. reflexivity. Qed.

Lemma mapIndex_insert (m : gmap string string) (k v : string) :
  mapIndex (<[k := v]> m) k = v.
Proof. unfold mapIndex. rewrite lookup_insert_eq. reflexivity. Qed.

Lemma mapIndex_insert_ne (m : gmap string string) (k k' v : string) :
  k <> k' -> mapIndex (<[k := v]> m) k' = mapIndex m k'.
Proof. intros H. unfold mapIndex. rewrite lookup_insert_ne by exact H. reflexivity. Qed.

Section ResponseProperties.
Context `{IL : Imaging.Lib} `{TL : Time.Lib}.

(** The handler reads a request through its path and the two numbers its
    parameters resolve to, and through nothing else. *)
Lemma handler_ext (svc : S3.Client) (r1 r2 : Events.APIGatewayProxyRequest) :
  Events.Path r1 = Events.Path r2 ->
  widthOf r1 = widthOf r2 -> heightOf r1 = heightOf r2 ->
  handler svc r1 = handler svc r2.
Proof.
  intros Hp Hw Hh. rewrite !handler_eq.
  unfold hostAllowed, dimensionsValid, inputOf, configOf.
  rewrite Hp, Hw, Hh. reflexivity.
Qed.

(** C7, amended.  A width or height parameter that is absent, or that is
    not a number and whose leading digits (after an optional sign) do
    not exceed 2^64 - 1, is a syntax error of [Atoi] that the handler
    drops: the value is 0, and the run is the run of the same request
    with the parameter set to "0". *)
Theorem handler_parameter_defaults_to_zero (svc : S3.Client)
    (req : Events.APIGatewayProxyRequest) (key : string) :
  key = "width" \/ key = "height" ->
  (Events.QueryStringParameters req !! key = None \/
   exists v, Events.QueryStringParameters req !! key = Some v /\
             numeric v = false /\
             leadingValue (unsignedPart v) 0 <= Strconv.maxUint64) ->
  Strconv.Atoi (mapIndex (Events.QueryStringParameters req) key)
    = (0, Some Strconv.ErrSyntax) /\
  handler svc req =
  handler svc {| Events.Path := Events.Path req;
                 Events.QueryStringParameters :=
                   <[key := "0"]> (Events.QueryStringParameters req) |}.
Proof.
  intros Hkey Hbad.
  assert (Hatoi : Strconv.Atoi (mapIndex (Events.QueryStringParameters req) key)
                  = (0, Some Strconv.ErrSyntax)).
  { destruct Hbad as [Habs | (v & Hv & Hnum & Hmax)].
    - rewrite (mapIndex_absent _ _ Habs). reflexivity.
    - rewrite (mapIndex_present _ _ _ Hv). apply Atoi_not_numeric; assumption. }
  split; [exact Hatoi |].
  apply handler_ext; [reflexivity | |]; unfold widthOf, heightOf;
    cbn [Events.QueryStringParameters];
    destruct Hkey as [-> | ->];
    rewrite ?mapIndex_insert, ?mapIndex_insert_ne by discriminate;
    rewrite ?Hatoi; reflexivity.
Qed.

(** C8, amended.  The body of every 200 response decodes, as base64, to
    exactly the bytes the JPEG encoder produced for the output image.
    For a source whose bounds start at column 0, that image is the source
    itself, its dimensions unchanged, when the source's width is at most
    the requested width.  For a source that starts at or right of column
    0, is not empty and is wider than the requested width, with the
    requested width and height both positive, the sides of that image are
    exactly (width, height). *)
Theorem handler_success_roundtrip (svc : S3.Client)
    (req : Events.APIGatewayProxyRequest)
    (resp : Events.APIGatewayProxyResponse) (err : option error) :
  fst (handler svc req) = Value (resp, err) ->
  Events.StatusCode resp = 200 ->
  exists obj src out buf,
    svc (inputOf req) = inl obj /\
    Imaging.Decode (S3.Body obj) = inl src /\
    outputImage (configOf req) src = Value out /\
    Imaging.Encode out Imaging.JPEG = inl buf /\
    Events.Body resp = Base64.EncodeToString buf /\
    Base64.DecodeString (Events.Body resp) = Some buf /\
    (Image.X (Image.Min (Imaging.Bounds src)) = 0 ->
     Image.Dx (Imaging.Bounds src) <= widthOf req ->
     out = src /\ dims out = dims src) /\
    (0 <= Image.X (Image.Min (Imaging.Bounds src)) ->
     widthOf req < Image.Dx (Imaging.Bounds src) ->
     0 < widthOf req -> 0 < heightOf req ->
     0 < Image.Dy (Imaging.Bounds src) ->
     dims out = (widthOf req, heightOf req)).
Proof.
  intros Hrun H200. rewrite handler_eq in Hrun.
  destruct (negb (hostAllowed req));
    [injection Hrun as <- <-; discriminate |].
  destruct (negb (dimensionsValid req));
    [injection Hrun as <- <-; discriminate |].
  destruct (svc (inputOf req)) as [obj | e] eqn:Hsvc; cbn [fst] in Hrun.
  2: { destruct (isNotFound e); injection Hrun as <- <-; discriminate. }
  rewrite resizer_eq in Hrun.
  destruct (Imaging.Decode (S3.Body obj)) as [src | e] eqn:Hdec;
    [| injection Hrun as <- <-; discriminate].
  destruct (outputImage (configOf req) src) as [out | p] eqn:Hout;
    [| discriminate].
  unfold encoded in Hrun.
  destruct (Imaging.Encode out Imaging.JPEG) as [buf | e] eqn:Henc;
    [| injection Hrun as <- <-; discriminate].
  apply envelope_value in Hrun as (_ & Hbody & _).
  exists obj, src, out, buf.
  split; [reflexivity |]. split; [exact Hdec |]. split; [exact Hout |].
  split; [exact Henc |].
  split; [exact Hbody |]. split; [rewrite Hbody; apply base64_roundtrip |].
  unfold outputImage in Hout. cbn [Width Height configOf] in Hout.
  split.
  - intros Hmin Hle.
    assert (Hedge : Image.X (Image.Max (Imaging.Bounds src)) <= widthOf req)
      by (unfold Image.Dx in Hle; lia).
    apply Z.leb_le in Hedge. rewrite Hedge in Hout. injection Hout as <-.
    split; reflexivity.
  - intros Hmin Hlt Hw Hh Hsh.
    assert (Hedge : widthOf req < Image.X (Image.Max (Imaging.Bounds src)))
      by (unfold Image.Dx in Hlt; lia).
    apply Z.leb_gt in Hedge. rewrite Hedge in Hout. unfold dims.
    rewrite (Resize_exact src (widthOf req) (heightOf req) Imaging.Lanczos out)
      by (assumption || lia).
    destruct (Rect_origin_dims (widthOf req) (heightOf req)) as [-> ->];
      [lia | lia | reflexivity].
Qed.

End ResponseProperties.

(** ** Runs on the reference codec *)

(** C1 (the code differs).  A picture 50 pixels wide whose frame starts at
    column 10 has its right edge at 60; with 55 requested, the width is
    within the request and the claim asks for the picture unchanged, but
    line 63 compares the right edge [b.Max.X], finds 60 > 55, and the
    picture goes out resized to 55 by 55. *)
Theorem resizer_resizes_offset_frame :
  let req := Reference.raster 10 50 50 in
  let config := Runs.config 55 55 in
  let src := Runs.rect 10 50 50 in
  let dst := Runs.rect 0 55 55 in
  Imaging.Decode req = inl src /\
  dims src = (50, 50) /\
  Image.Dx (Imaging.Bounds src) <= Width config /\
  Imaging.Resize src 55 55 Imaging.Lanczos = Value dst /\
  resizer req config = Value (encoded dst) /\
  dims dst = (55, 55) /\
  resizer req config <> Value (encoded src).
Proof.
  intros req config src dst.
  split; [reflexivity |]. split; [reflexivity |].
  split; [evaluated |]. split; [reflexivity |]. split; [reflexivity |].
  split; [reflexivity |].
  vm_compute. discriminate.
Qed.

(** C2 as stated fails: a 500 by 400 picture, width 100 and height 0
    requested.  The validator accepts the request (the width is
    positive), the picture is wider than 100, and the resized picture is
    100 by 80, the height following the aspect ratio, not 100 by 0. *)
Lemma resizer_height_zero_keeps_aspect :
  let req := Reference.raster 0 500 400 in
  let config := Runs.config 100 0 in
  let src := Runs.rect 0 500 400 in
  let dst := Runs.rect 0 100 80 in
  Imaging.Decode req = inl src /\
  Width config < Image.Dx (Imaging.Bounds src) /\
  negb ((Width config <=? 0) && (Height config <=? 0)) = true /\
  Imaging.Resize src (Width config) (Height config) Imaging.Lanczos = Value dst /\
  resizer req config = Value (encoded dst) /\
  dims dst = (100, 80) /\
  dims dst <> (Width config, Height config).
Proof.
  intros req config src dst.
  split; [reflexivity |]. split; [evaluated |].
  split; [reflexivity |]. split; [reflexivity |]. split; [reflexivity |].
  split; [reflexivity |].
  vm_compute. discriminate.
Qed.

Lemma resizer_resizes_exactly_witness :
  let req := Reference.raster 0 500 400 in
  let config := Runs.config 100 80 in
  let src := Runs.rect 0 500 400 in
  let dst := Runs.rect 0 100 80 in
  Imaging.Decode req = inl src /\
  Imaging.Resize src 100 80 Imaging.Lanczos = Value dst /\
  resizer req config = Value (encoded dst) /\ dims dst = (100, 80).
Proof.
  intros req config src dst. split; [reflexivity |]. split; [reflexivity |].
  apply (resizer_resizes_exactly req config src);
    [reflexivity | evaluated | evaluated | evaluated | evaluated | evaluated
    | reflexivity].
Defined.

Lemma handler_nonpositive_dimensions_witness :
  let req := Reference.request "images.story.io" [("width", "0"); ("height", "-3")] in
  widthOf req = 0 /\ heightOf req = -3 /\
  statusOf (fst (handler Runs.store req)) = Some 400.
Proof.
  intros req. split; [reflexivity |]. split; [reflexivity |].
  apply (handler_nonpositive_dimensions Runs.store req).
  - change (widthOf req) with 0. lia.
  - change (heightOf req) with (-3). lia.
Defined.

Lemma handler_storage_failure_witness :
  let req := Reference.request "images.story.io" [("width", "100"); ("height", "80")] in
  let svc := Reference.bucket "elsewhere" Runs.picture in
  let err := AwsError S3.ErrCodeNoSuchKey "The specified key does not exist." in
  validated req /\ svc (inputOf req) = inr err /\
  statusOf (fst (handler svc req)) = Some 404 /\
  bodyOf (fst (handler svc req)) = Some "Not Found".
Proof.
  intros req svc err.
  assert (Hv : validated req) by (split; reflexivity).
  assert (Hs : svc (inputOf req) = inr err) by reflexivity.
  split; [exact Hv |]. split; [exact Hs |].
  destruct (handler_storage_failure svc req err Hv Hs) as [Hnf _].
  destruct Hnf as (H1 & H2 & H3).
  - exists "The specified key does not exist.". right. reflexivity.
  - split; [exact H1 |]. rewrite H2, H3. reflexivity.
Defined.

(** C7 as stated fails: the width "99999999999999999999x" is not a number,
    yet [Atoi] meets the overflow of its digits before it meets the 'x'
    and returns the largest [int] with a range error.  The handler drops
    the error, keeps 9223372036854775807 as the width, and serves the
    picture (200); with the width taken as 0 and no height, the same
    request is refused (400). *)
Lemma atoi_overflow_before_letter :
  let bad := "99999999999999999999x" in
  let req := Reference.request "images.story.io" [("width", bad)] in
  let req0 := Reference.request "images.story.io" [("width", "0")] in
  numeric bad = false /\
  Events.QueryStringParameters req !! "width" = Some bad /\
  Strconv.Atoi bad = (9223372036854775807, Some Strconv.ErrRange) /\
  widthOf req <> 0 /\
  statusOf (fst (handler Runs.store req)) = Some 200 /\
  statusOf (fst (handler Runs.store req0)) = Some 400.
Proof.
  intros bad req req0.
  split; [reflexivity |]. split; [reflexivity |]. split; [reflexivity |].
  split; [evaluated |]. split; reflexivity.
Qed.

Lemma handler_parameter_defaults_to_zero_witness :
  let req := Reference.request "images.story.io" [("width", "12px"); ("height", "80")] in
  Events.QueryStringParameters req !! "width" = Some "12px" /\
  numeric "12px" = false /\
  Strconv.Atoi (mapIndex (Events.QueryStringParameters req) "width")
    = (0, Some Strconv.ErrSyntax) /\
  handler Runs.store req =
  handler Runs.store
    {| Events.Path := Events.Path req;
       Events.QueryStringParameters :=
         <["width" := "0"]> (Events.QueryStringParameters req) |}.
Proof.
  intros req. split; [reflexivity |]. split; [reflexivity |].
  apply (handler_parameter_defaults_to_zero Runs.store req "width").
  - left. reflexivity.
  - right. exists "12px". split; [reflexivity |]. split; [reflexivity | evaluated].
Defined.

(** C8 as stated fails on the dimensions: width 0 and height 80 requested
    for a 500 by 400 picture.  The request is valid (the height is
    positive), the response is 200 and its body decodes to the encoder's
    bytes, but the picture is wider than 0 and comes out 100 by 80, the
    width following the aspect ratio, not 0 by 80. *)
Lemma handler_width_zero_keeps_aspect :
  let req := Reference.request "images.story.io" [("width", "0"); ("height", "80")] in
  let src := Runs.rect 0 500 400 in
  let out := Runs.rect 0 100 80 in
  exists buf,
    statusOf (fst (handler Runs.store req)) = Some 200 /\
    Imaging.Decode (S3.Body Runs.picture) = inl src /\
    outputImage (configOf req) src = Value out /\
    Imaging.Encode out Imaging.JPEG = inl buf /\
    (Base64.DecodeString <$> bodyOf (fst (handler Runs.store req))) = Some (Some buf) /\
    widthOf req < Image.Dx (Imaging.Bounds src) /\
    dims out = (100, 80) /\
    dims out <> (widthOf req, heightOf req).
Proof.
  intros req src out. eexists.
  split; [reflexivity |]. split; [reflexivity |]. split; [reflexivity |].
  split; [reflexivity |].
  split; [reflexivity |]. split; [evaluated |]. split; [reflexivity |].
  vm_compute. discriminate.
Qed.

Lemma handler_success_roundtrip_witness :
  let req := Reference.request "images.story.io" [("width", "100"); ("height", "80")] in
  exists resp out buf,
    fst (handler Runs.store req) = Value (resp, None) /\
    Events.StatusCode resp = 200 /\
    Events.Body resp = "/9gAUABk/9k=" /\
    Base64.DecodeString (Events.Body resp) = Some buf /\
    buf = [xff; xd8; x00; x50; x00; x64; xff; xd9] /\
    Imaging.Encode out Imaging.JPEG = inl buf /\
    dims out = (100, 80).
Proof.
  intros req.
  destruct (fst (handler Runs.store req)) as [[resp err] | e] eqn:Hrun;
    [| vm_compute in Hrun; discriminate Hrun].
  assert (H200 : Events.StatusCode resp = 200)
    by (vm_compute in Hrun; injection Hrun as <- <-; reflexivity).
  destruct (handler_success_roundtrip Runs.store req resp err Hrun H200)
    as (obj & src & out & buf & Hsvc & Hdec & Hout & Henc & Hbody & Hb64 & _ & Hdims).
  exists resp, out, buf.
  vm_compute in Hsvc. injection Hsvc as <-.
  vm_compute in Hdec. injection Hdec as <-.
  assert (Hd : dims out = (100, 80))
    by (apply Hdims; evaluated).
  vm_compute in Hout. injection Hout as <-.
  vm_compute in Henc. injection Henc as <-.
  vm_compute in Hrun. injection Hrun as <- <-.
  repeat split; reflexivity.
Defined.

Lemma handler_nil_metadata_panics_witness :
  let req := Reference.request "images.story.io" [("width", "100"); ("height", "80")] in
  let svc := Reference.bucket "images.story.io" Runs.bare in
  validated req /\ svc (inputOf req) = inl Runs.bare /\
  resizer (S3.Body Runs.bare) (configOf req) = Value ("/9gAUABk/9k=", None) /\
  S3.CacheControl Runs.bare = None /\
  fst (handler svc req) = Panics NilPointerDereference.
Proof.
  intros req svc.
  assert (Hv : validated req) by (split; reflexivity).
  assert (Hs : svc (inputOf req) = inl Runs.bare) by reflexivity.
  assert (Hr : resizer (S3.Body Runs.bare) (configOf req)
               = Value ("/9gAUABk/9k=", None))
    by reflexivity.
  split; [exact Hv |]. split; [exact Hs |]. split; [exact Hr |].
  split; [reflexivity |].
  apply (handler_nil_metadata_panics svc req Runs.bare "/9gAUABk/9k=" Hv Hs Hr).
  left. reflexivity.
Defined.

Lemma handler_error_values_witness :
  let refused := Reference.request "/not-allowed" [("width", "100")] in
  let corrupt := Reference.bucket "images.story.io" (Reference.object [x00]) in
  let req := Reference.request "images.story.io" [("width", "100"); ("height", "80")] in
  hostAllowed refused = false /\
  fst (handler Runs.store refused) = Value (errResponse 400, None) /\
  Imaging.Decode [x00] = inr (OtherError "image: unknown format") /\
  exists e, fst (handler corrupt req) = Value (errResponse 500, Some e).
Proof.
  intros refused corrupt req.
  assert (Hh : hostAllowed refused = false) by reflexivity.
  split; [exact Hh |]. split.
  - apply (handler_error_values Runs.store refused). left. exact Hh.
  - split; [reflexivity |].
    apply (handler_error_values corrupt req)
      with (obj := Reference.object [x00]) (err := OtherError "image: unknown format").
    + split; reflexivity.
    + reflexivity.
    + left. reflexivity.
Defined.

(** Scenario B with the path written without its slash: the picture is
    served, 100 by 80. *)
Example scenario_B_without_slash :
  let req := Reference.request "images.story.io" [("width", "100"); ("height", "80")] in
  statusOf (fst (handler Runs.store req)) = Some 200 /\
  bodyOf (fst (handler Runs.store req)) = Some "/9gAUABk/9k=" /\
  Base64.DecodeString "/9gAUABk/9k=" = Some [xff; xd8; x00; x50; x00; x64; xff; xd9] /\
  snd (handler Runs.store req) = [CallGetObject (inputOf req); CloseBody].
Proof. repeat split; reflexivity. Qed.

(** A height no buffer can hold: [imaging.Resize] panics in
    [image.NewNRGBA], the resizer and the handler panic with it, and the
    deferred close still runs. *)
Example huge_height_panics :
  let req := Reference.request "images.story.io"
               [("width", "1"); ("height", "4611686018427387904")] in
  let panic := PanicValue "image: NewNRGBA Rectangle has huge or negative dimensions" in
  Imaging.Resize (Runs.rect 0 500 400) 1 (2 ^ 62) Imaging.Lanczos = Panics panic /\
  resizer (Reference.raster 0 500 400) (configOf req) = Panics panic /\
  handler Runs.store req = (Panics panic, [CallGetObject (inputOf req); CloseBody]).
Proof. repeat split; reflexivity. Qed.

(* ===================================================================== *)
(** * Part VI: further properties of the program                          *)
(* ===================================================================== *)

(** ** strconv.Atoi on numbers *)

Lemma isDigit_value (c : ascii) :
  isDigit c = true -> 0 <= byte_val c - 48 <= 9.
Proof.
  unfold isDigit. intros H. apply andb_true_iff in H as [H1 H2].
  apply Z.leb_le in H1, H2. lia.
Qed.

Lemma int64_small (z : Z) : - 2 ^ 63 <= z < 2 ^ 63 -> int64 z = z.
Proof.
  intros Hz. unfold int64. rewrite Z.mod_small by lia. lia.
Qed.

(** The fast loop reads a run of digits as its decimal value. *)
Lemma atoiFastLoop_digits (s : string) :
  allDigits s = true ->
  forall n, 0 <= n -> leadingValue s n < 2 ^ 63 ->
  Strconv.atoiFastLoop s n = Some (leadingValue s n).
Proof.
  induction s as [| c s IH]; intros Hs n Hn Hmax; [reflexivity |].
  cbn [allDigits] in Hs. apply andb_true_iff in Hs as [Hc Hs].
  cbn [leadingValue] in *. rewrite Hc in *.
  pose proof (isDigit_value c Hc) as Hd.
  pose proof (leadingValue_ge s (n * 10 + (byte_val c - 48)) ltac:(lia)) as Hge.
  cbn [Strconv.atoiFastLoop].
  rewrite (Z.mod_small (byte_val c - 48) 256) by lia.
  destruct (9 <? byte_val c - 48) eqn:E; [apply Z.ltb_lt in E; lia |].
  rewrite int64_small by lia.
  apply IH; [exact Hs | lia | exact Hmax].
Qed.

(** The slow loop does the same, up to the largest [uint64]. *)
Lemma parseUintLoop_digits (s : string) :
  allDigits s = true ->
  forall n, 0 <= n <= Strconv.maxUint64 ->
  Strconv.parseUintLoop s n =
  if leadingValue s n <=? Strconv.maxUint64 then (leadingValue s n, None)
  else (Strconv.maxUint64, Some Strconv.ErrRange).
Proof.
  induction s as [| c s IH]; intros Hs n Hn.
  - cbn. destruct (n <=? Strconv.maxUint64) eqn:E; [reflexivity |].
    apply Z.leb_gt in E. lia.
  - cbn [allDigits] in Hs. apply andb_true_iff in Hs as [Hc Hs].
    cbn [leadingValue Strconv.parseUintLoop]. rewrite Hc.
    pose proof (isDigit_value c Hc) as Hd.
    unfold isDigit in Hc. rewrite Hc.
    pose proof (leadingValue_ge s (n * 10 + (byte_val c - 48)) ltac:(lia)) as Hge.
    unfold Strconv.maxUint64 in *.
    change (2 ^ 64 - 1) with 18446744073709551615 in *.
    change (18446744073709551615 / 10 + 1) with 1844674407370955162.
    change (2 ^ 64) with 18446744073709551616.
    destruct (1844674407370955162 <=? n) eqn:Ecut.
    { apply Z.leb_le in Ecut.
      destruct (_ <=? 18446744073709551615) eqn:E; [apply Z.leb_le in E; lia |].
      reflexivity. }
    apply Z.leb_gt in Ecut.
    destruct (Z_le_gt_dec (n * 10 + (byte_val c - 48)) 18446744073709551615)
      as [Hfit | Hover].
    + rewrite Z.mod_small by lia.
      destruct (_ <? n * 10) eqn:E1; [apply Z.ltb_lt in E1; lia |].
      destruct (18446744073709551615 <? _) eqn:E2; [apply Z.ltb_lt in E2; lia |].
      cbn [orb]. apply IH; [exact Hs | lia].
    + assert (Hmod : (n * 10 + (byte_val c - 48)) mod 18446744073709551616
                     = n * 10 + (byte_val c - 48) - 18446744073709551616)
        by (Z.div_mod_to_equations; lia).
      rewrite Hmod.
      destruct (_ <? n * 10) eqn:E1; [| apply Z.ltb_ge in E1; lia].
      cbn [orb].
      destruct (_ <=? 18446744073709551615) eqn:E; [apply Z.leb_le in E; lia |].
      reflexivity.
Qed.

Lemma numeric_true (s : string) :
  numeric s = true ->
  unsignedPart s <> EmptyString /\ allDigits (unsignedPart s) = true.
Proof.
  unfold numeric. destruct (unsignedPart s); [discriminate |].
  intros H. split; [discriminate | exact H].
Qed.

Lemma clamp64_cases (z : Z) :
  (z < - 2 ^ 63 /\ clamp64 z = - 2 ^ 63) \/
  (- 2 ^ 63 <= z <= 2 ^ 63 - 1 /\ clamp64 z = z) \/
  (2 ^ 63 - 1 < z /\ clamp64 z = 2 ^ 63 - 1).
Proof. unfold clamp64. lia. Qed.

(** [Atoi] on a number: the value written when it fits [int64], with no
    error; otherwise the nearest [int64], with [ErrRange]. *)
Lemma Atoi_numeric (s : string) :
  numeric s = true ->
  Strconv.Atoi s =
  (clamp64 (signedValue s),
   if (- 2 ^ 63 <=? signedValue s) && (signedValue s <=? 2 ^ 63 - 1)
   then None else Some Strconv.ErrRange).
Proof.
  intros Hnum. apply numeric_true in Hnum as [Hne Hdig].
  destruct s as [| c0 rest]; [contradiction |].
  unfold signedValue. cbn [negative].
  cbn [unsignedPart] in Hne, Hdig |- *.
  pose proof (leadingValue_ge (if Ascii.eqb c0 "+" || Ascii.eqb c0 "-" then rest
                               else String c0 rest) 0 ltac:(lia)) as Hpos.
  set (u := if Ascii.eqb c0 "+" || Ascii.eqb c0 "-" then rest else String c0 rest) in *.
  set (v := leadingValue u 0) in *.
  unfold Strconv.Atoi.
  destruct ((0 <? Strconv.strlen (String c0 rest)) &&
            (Strconv.strlen (String c0 rest) <? 19)) eqn:Hfast.
  - (* the fast path: at most 18 bytes, no overflow *)
    apply andb_true_iff in Hfast as [_ Hlen]. apply Z.ltb_lt in Hlen.
    unfold Strconv.strlen in Hlen. cbn [String.length] in Hlen.
    assert (Hulen : (String.length u <= 18)%nat).
    { unfold u. destruct (_ || _); cbn [String.length]; lia. }
    assert (Hv : v < 2 ^ 63).
    { pose proof (leadingValue_bound u 0 ltac:(lia)) as Hb.
      assert (10 ^ Z.of_nat (String.length u) <= 10 ^ 18)
        by (apply Z.pow_le_mono_r; lia).
      change (10 ^ 18) with 1000000000000000000 in *.
      change (2 ^ 63) with 9223372036854775808. fold v in Hb. lia. }
    rewrite (orb_comm (Ascii.eqb c0 "-")). fold u.
    assert (Hshort : (Ascii.eqb c0 "+" || Ascii.eqb c0 "-")
                     && (Strconv.strlen u <? 1) = false).
    { destruct (_ || _); [| reflexivity]. cbn [andb].
      apply Z.ltb_ge. unfold Strconv.strlen.
      destruct u; [contradiction | cbn [String.length]; lia]. }
    rewrite Hshort.
    rewrite atoiFastLoop_digits by (try assumption; lia). fold v.
    change (2 ^ 63) with 9223372036854775808 in *.
    destruct (Ascii.eqb c0 "-").
    + rewrite int64_small by (change (2 ^ 63) with 9223372036854775808; lia).
      destruct (clamp64_cases (- v)) as [[H _] | [[H ->] | [H _]]];
        change (2 ^ 63) with 9223372036854775808 in *; try lia.
      destruct (_ <=? - v) eqn:E1; [| apply Z.leb_gt in E1; lia].
      destruct (- v <=? _) eqn:E2; [| apply Z.leb_gt in E2; lia].
      reflexivity.
    + destruct (clamp64_cases v) as [[H _] | [[H ->] | [H _]]];
        change (2 ^ 63) with 9223372036854775808 in *; try lia.
      destruct (_ <=? v) eqn:E1; [| apply Z.leb_gt in E1; lia].
      destruct (v <=? _) eqn:E2; [| apply Z.leb_gt in E2; lia].
      reflexivity.
  - (* the slow path, through ParseInt *)
    unfold Strconv.ParseInt. fold u.
    assert (HPU : Strconv.ParseUint u = Strconv.parseUintLoop u 0)
      by (destruct u; [contradiction | reflexivity]).
    rewrite HPU, parseUintLoop_digits by (try assumption; unfold Strconv.maxUint64; lia).
    fold v. unfold Strconv.maxUint64.
    change (2 ^ 64 - 1) with 18446744073709551615.
    change (2 ^ 63) with 9223372036854775808.
    unfold int64.
    change (2 ^ 63) with 9223372036854775808.
    change (2 ^ 64) with 18446744073709551616.
    destruct (v <=? 18446744073709551615) eqn:Efit;
      [apply Z.leb_le in Efit | apply Z.leb_gt in Efit];
      destruct (Ascii.eqb c0 "-"); cbn [negb andb];
      repeat match goal with
             | |- context [?a <=? ?b] => destruct (Z.leb_spec a b)
             | |- context [?a <? ?b] => destruct (Z.ltb_spec a b)
             end;
      cbn [andb];
      try (exfalso; lia);
      try (f_equal; unfold clamp64;
           change (2 ^ 63) with 9223372036854775808;
           Z.div_mod_to_equations; lia).
Qed.

(** ** The parameters as numbers *)

(** X1.  A width or height parameter that is a number is used as written
    when it fits a 64-bit [int], and as the nearest 64-bit [int] when it
    does not: the range error of [Atoi] is dropped with the other errors,
    so an oversized number is clamped, not refused. *)
Theorem handler_numeric_parameter (req : Events.APIGatewayProxyRequest) (v : string) :
  numeric v = true ->
  (Events.QueryStringParameters req !! "width" = Some v ->
   widthOf req = clamp64 (signedValue v)) /\
  (Events.QueryStringParameters req !! "height" = Some v ->
   heightOf req = clamp64 (signedValue v)) /\
  (- 2 ^ 63 <= signedValue v <= 2 ^ 63 - 1 ->
   Strconv.Atoi v = (signedValue v, None)).
Proof.
  intros Hnum. pose proof (Atoi_numeric v Hnum) as HA.
  split; [| split].
  - intros Hw. unfold widthOf. rewrite (mapIndex_present _ _ _ Hw), HA. reflexivity.
  - intros Hh. unfold heightOf. rewrite (mapIndex_present _ _ _ Hh), HA. reflexivity.
  - intros [Hlo Hhi]. rewrite HA.
    apply Z.leb_le in Hlo as Hlo', Hhi as Hhi'. rewrite Hlo', Hhi'. cbn [andb].
    unfold clamp64. f_equal. lia.
Qed.

(** ** strings.Contains and the allow-list *)

Lemma HasPrefix_spec (s p : string) :
  Strings.HasPrefix s p = true <-> exists post, s = String.append p post.
Proof.
  revert s. induction p as [| a p IH]; intros s.
  - split; [intros _; exists s; reflexivity | intros _; destruct s; reflexivity].
  - destruct s as [| b s]; cbn [Strings.HasPrefix String.append].
    + split; [discriminate | intros [post H]; discriminate].
    + rewrite andb_true_iff, Ascii.eqb_eq, IH. split.
      * intros [-> [post ->]]. exists post. reflexivity.
      * intros [post H]. injection H as -> ->. split; [reflexivity | eauto].
Qed.

(** [Contains(s, substr)] holds exactly when [substr] lies somewhere
    inside [s]. *)
Lemma Contains_spec (s sub : string) :
  Strings.Contains s sub = true <->
  exists pre post, s = String.append pre (String.append sub post).
Proof.
  induction s as [| c s IH].
  - cbn [Strings.Contains]. rewrite orb_false_r, HasPrefix_spec. split.
    + intros [post H]. exists EmptyString, post. exact H.
    + intros (pre & post & H). destruct pre; [eauto | discriminate].
  - cbn [Strings.Contains]. rewrite orb_true_iff, HasPrefix_spec, IH. split.
    + intros [[post H] | (pre & post & H)].
      * exists EmptyString, post. exact H.
      * exists (String c pre), post. cbn. rewrite H. reflexivity.
    + intros (pre & post & H). destruct pre as [| a pre].
      * left. exists post. exact H.
      * right. cbn in H. injection H as -> ->. eauto.
Qed.

Lemma append_length (a b : string) :
  String.length (String.append a b) = (String.length a + String.length b)%nat.
Proof.
  induction a as [| c a IH]; [reflexivity |].
  change (S (String.length (String.append a b))
          = S (String.length a + String.length b)%nat).
  f_equal. exact IH.
Qed.

(** X2.  The host check of line 91 passes exactly for the paths that are
    a piece of "images.story.io" (the empty path among them); such a path
    has at most 15 bytes. *)
Theorem hostAllowed_substring (req : Events.APIGatewayProxyRequest) :
  (hostAllowed req = true <->
   exists pre post,
     "images.story.io" = String.append pre (String.append (Events.Path req) post)) /\
  (hostAllowed req = true -> (String.length (Events.Path req) <= 15)%nat) /\
  (Events.Path req = EmptyString -> hostAllowed req = true).
Proof.
  assert (Hiff : hostAllowed req = true <->
    exists pre post,
      "images.story.io" = String.append pre (String.append (Events.Path req) post))
    by (unfold hostAllowed; cbn [Strings.Join]; apply Contains_spec).
  split; [exact Hiff |]. split.
  - intros H. apply Hiff in H as (pre & post & H).
    apply (f_equal String.length) in H. rewrite !append_length in H.
    cbn [String.length] in H. lia.
  - intros H. unfold hostAllowed. rewrite H. reflexivity.
Qed.

Section Gate.
Context `{IL : Imaging.Lib} `{TL : Time.Lib}.

(** X3.  A path that starts with a slash, as every path API Gateway
    delivers does, never passes the host check: the answer is the 400
    envelope with a nil error, and the storage is not called, whatever
    the parameters and the storage. *)
Theorem handler_slash_path_refused (svc : S3.Client)
    (rest : string) (params : gmap string string) :
  handler svc {| Events.Path := String "/" rest;
                 Events.QueryStringParameters := params |}
  = (Value (errResponse 400, None), []).
Proof.
  apply handler_host_rejected. unfold hostAllowed. cbn [Events.Path Strings.Join].
  reflexivity.
Qed.

End Gate.

(** ** Every run of the handler *)

Lemma accepted_validated (req : Events.APIGatewayProxyRequest) :
  accepted req = true <-> validated req.
Proof. unfold accepted, validated. apply andb_true_iff. Qed.

Lemma envelope_cases `{TL : Time.Lib} (obj : S3.GetObjectOutput) (s : string) :
  (exists cc lm et,
     S3.CacheControl obj = Some cc /\ S3.LastModified obj = Some lm /\
     S3.ETag obj = Some et /\
     envelope obj s =
     Value ({| Events.Body := s;
               Events.Headers :=
                 <[ "Content-Type" := "image/jpeg" ]>
                 (<[ "Cache-Control" := cc ]>
                 (<[ "Last-Modified" := Time.Format lm Http.TimeFormat ]>
                 (<[ "ETag" := et ]> ∅)));
               Events.StatusCode := 200;
               Events.IsBase64Encoded := true |}, None)) \/
  ((S3.CacheControl obj = None \/ S3.LastModified obj = None \/ S3.ETag obj = None) /\
   envelope obj s = Panics NilPointerDereference).
Proof.
  unfold envelope.
  destruct (S3.CacheControl obj) as [cc |], (S3.LastModified obj) as [lm |],
    (S3.ETag obj) as [et |]; cbn;
    first [ left; exists cc, lm, et; repeat split; reflexivity
          | right; split; [tauto | reflexivity] ].
Qed.

Section Runs.
Context `{IL : Imaging.Lib} `{TL : Time.Lib}.

(** The handler always takes one of the six ways. *)
Lemma handler_run (svc : S3.Client) (req : Events.APIGatewayProxyRequest) :
  Run svc req (handler svc req).
Proof.
  rewrite handler_eq. unfold accepted.
  destruct (hostAllowed req) eqn:Hh; cbn [negb];
    [| apply RunRefused; unfold accepted; rewrite Hh; reflexivity].
  destruct (dimensionsValid req) eqn:Hd; cbn [negb];
    [| apply RunRefused; unfold accepted; rewrite Hh, Hd; reflexivity].
  assert (Ha : accepted req = true) by (unfold accepted; rewrite Hh, Hd; reflexivity).
  destruct (svc (inputOf req)) as [obj | err] eqn:Hsvc.
  - destruct (resizer (S3.Body obj) (configOf req)) as [[s [err |]] | p] eqn:Hres.
    + eapply RunResizeFault; eassumption.
    + eapply RunServed; eassumption.
    + eapply RunResizePanic; eassumption.
  - destruct (isNotFound err) eqn:Hnf.
    + eapply RunNotFound; eassumption.
    + eapply RunStorageFault; eassumption.
Qed.

(** X4.  A run that returns has status 200, 400, 404 or 500 and no
    other.  With 200 the body is marked base64 and the error is nil;
    otherwise the response is the plain-text envelope of its status: the
    standard phrase as body, Content-Type text/plain, not base64. *)
Theorem handler_statuses (svc : S3.Client) (req : Events.APIGatewayProxyRequest)
    (resp : Events.APIGatewayProxyResponse) (err : option error) :
  fst (handler svc req) = Value (resp, err) ->
  (Events.StatusCode resp = 200 /\ Events.IsBase64Encoded resp = true /\ err = None) \/
  (exists code, (code = 400 \/ code = 404 \/ code = 500) /\
     resp = errResponse code /\
     Events.Body resp = Http.StatusText code /\
     Events.Headers resp !! "Content-Type" = Some "text/plain" /\
     Events.IsBase64Encoded resp = false).
Proof.
  intros Hrun. destruct (handler_run svc req) as [Ha | e Ha Hs Hn | e Ha Hs Hn
    | obj p Ha Hs Hr | obj s e Ha Hs Hr | obj s Ha Hs Hr]; cbn [fst] in Hrun.
  - injection Hrun as <- <-. right. exists 400. repeat split; auto.
  - injection Hrun as <- <-. right. exists 404. repeat split; auto.
  - injection Hrun as <- <-. right. exists 500. repeat split; auto.
  - discriminate.
  - injection Hrun as <- <-. right. exists 500. repeat split; auto.
  - apply envelope_value in Hrun as (H200 & _ & Hb & He & _). left. auto.
Qed.

(** X5.  The second result is a non-nil error exactly when the status is
    500, and that error wraps the very error the storage or the resizer
    returned.  A 404 carries a nil error, like a 400 and a 200. *)
Theorem handler_error_only_with_500 (svc : S3.Client)
    (req : Events.APIGatewayProxyRequest)
    (resp : Events.APIGatewayProxyResponse) (err : option error) :
  fst (handler svc req) = Value (resp, err) ->
  (err <> None <-> Events.StatusCode resp = 500) /\
  (forall e, err = Some e ->
     exists cause msg, e = withMessage cause msg /\
       (svc (inputOf req) = inr cause \/
        exists obj s, svc (inputOf req) = inl obj /\
                      resizer (S3.Body obj) (configOf req) = Value (s, Some cause))).
Proof.
  intros Hrun. destruct (handler_run svc req) as [Ha | e Ha Hs Hn | e Ha Hs Hn
    | obj p Ha Hs Hr | obj s e Ha Hs Hr | obj s Ha Hs Hr]; cbn [fst] in Hrun.
  - injection Hrun as <- <-. split; [split; [congruence | discriminate] | discriminate].
  - injection Hrun as <- <-. split; [split; [congruence | discriminate] | discriminate].
  - injection Hrun as <- <-. split; [split; [reflexivity | discriminate] |].
    intros e' [= <-]. eauto.
  - discriminate.
  - injection Hrun as <- <-. split; [split; [reflexivity | discriminate] |].
    intros e' [= <-]. do 2 eexists. split; [reflexivity |].
    right. exists obj, s. auto.
  - apply envelope_value in Hrun as (H200 & _ & _ & -> & _).
    split; [split; [congruence | rewrite H200; discriminate] | discriminate].
Qed.

(** X6.  The handler panics exactly when, after a valid request and a
    successful fetch, the resizer panics, and the handler then panics
    with the same value, or the resizer returned a text and no error and
    one of the object's Cache-Control, Last-Modified or ETag pointers is
    nil, and the panic is then a nil-pointer dereference.  The resizer
    panics whenever [imaging.Resize] does (an object that decoded, its
    right edge beyond the requested width, sides too large for the
    library's buffers). *)
Theorem handler_panics_iff (svc : S3.Client) (req : Events.APIGatewayProxyRequest)
    (e : RuntimeError) :
  (fst (handler svc req) = Panics e <->
   validated req /\
   exists obj,
     svc (inputOf req) = inl obj /\
     (resizer (S3.Body obj) (configOf req) = Panics e \/
      (e = NilPointerDereference /\
       exists s,
         resizer (S3.Body obj) (configOf req) = Value (s, None) /\
         (S3.CacheControl obj = None \/ S3.LastModified obj = None \/
          S3.ETag obj = None)))) /\
  (forall obj src,
     Imaging.Decode (S3.Body obj) = inl src ->
     widthOf req < Image.X (Image.Max (Imaging.Bounds src)) ->
     Imaging.Resize src (widthOf req) (heightOf req) Imaging.Lanczos = Panics e ->
     resizer (S3.Body obj) (configOf req) = Panics e).
Proof.
  split; [split |].
  - intros Hrun. destruct (handler_run svc req) as [Ha | e' Ha Hs Hn | e' Ha Hs Hn
      | obj p Ha Hs Hr | obj s e' Ha Hs Hr | obj s Ha Hs Hr];
      cbn [fst] in Hrun; try discriminate.
    + injection Hrun as ->.
      split; [apply accepted_validated; exact Ha |]. exists obj. auto.
    + destruct (envelope_cases obj s) as [(cc & lm & et & _ & _ & _ & Hv) | [Hnil Hp]].
      * rewrite Hv in Hrun. discriminate.
      * rewrite Hp in Hrun. injection Hrun as <-.
        split; [apply accepted_validated; exact Ha |]. exists obj.
        split; [exact Hs |]. right. split; [reflexivity |]. eauto.
  - intros (Hv & obj & Hs & [Hpanic | (-> & s & Hr & Hnil)]).
    + rewrite (handler_validated svc req Hv), Hs, Hpanic. reflexivity.
    + rewrite (handler_validated svc req Hv), Hs, Hr. cbn [fst].
      destruct (envelope_cases obj s) as [(cc & lm & et & H1 & H2 & H3 & _) | [_ Hp]].
      * destruct Hnil as [H | [H | H]]; congruence.
      * exact Hp.
  - intros obj src Hdec Hlt Hpanic.
    apply (resizer_panics (S3.Body obj) (configOf req)). exists src. auto.
Qed.

(** X7.  The status is 200 exactly when the request is valid, the object
    was fetched, the resizer returned no error and the three headers are
    there; the response then carries the resizer's text as body, the
    object's Cache-Control and ETag, its Last-Modified as an HTTP date and
    Content-Type image/jpeg, four headers in all. *)
Theorem handler_serves_iff (svc : S3.Client) (req : Events.APIGatewayProxyRequest)
    (resp : Events.APIGatewayProxyResponse) :
  (exists err, fst (handler svc req) = Value (resp, err) /\
               Events.StatusCode resp = 200) <->
  validated req /\
  exists obj s cc lm et,
    svc (inputOf req) = inl obj /\
    resizer (S3.Body obj) (configOf req) = Value (s, None) /\
    S3.CacheControl obj = Some cc /\ S3.LastModified obj = Some lm /\
    S3.ETag obj = Some et /\
    Events.Body resp = s /\ Events.StatusCode resp = 200 /\
    Events.IsBase64Encoded resp = true /\
    Events.Headers resp !! "Content-Type" = Some "image/jpeg" /\
    Events.Headers resp !! "Cache-Control" = Some cc /\
    Events.Headers resp !! "Last-Modified" = Some (Time.Format lm Http.TimeFormat) /\
    Events.Headers resp !! "ETag" = Some et /\
    dom (Events.Headers resp)
      = ({[ "Content-Type"; "Cache-Control"; "Last-Modified"; "ETag" ]} : gset string).
Proof.
  split.
  - intros (err & Hrun & H200).
    destruct (handler_run svc req) as [Ha | e' Ha Hs Hn | e' Ha Hs Hn
      | obj p Ha Hs Hr | obj s e' Ha Hs Hr | obj s Ha Hs Hr]; cbn [fst] in Hrun;
      try (injection Hrun as <- <-; discriminate); try discriminate.
    split; [apply accepted_validated; exact Ha |].
    destruct (envelope_cases obj s) as [(cc & lm & et & H1 & H2 & H3 & Hv) | [_ Hp]];
      [| rewrite Hp in Hrun; discriminate].
    rewrite Hv in Hrun. injection Hrun as <- <-.
    exists obj, s, cc, lm, et. cbn [Events.Body Events.StatusCode
      Events.IsBase64Encoded Events.Headers].
    repeat split;
      first [ assumption | reflexivity
            | rewrite !dom_insert_L, dom_empty_L; set_solver ].
  - intros (Hv & obj & s & cc & lm & et & Hs & Hr & H1 & H2 & H3 & Hb & H200 & He
            & Hct & Hcc & Hlm & Het & Hdom).
    rewrite (handler_validated svc req Hv), Hs, Hr. cbn [fst].
    unfold envelope. rewrite H1, H2, H3. cbn.
    exists None. split; [| exact H200]. do 2 f_equal.
    destruct resp as [code headers body b64]. cbn in *. subst. f_equal.
    apply map_eq. intros k.
    destruct (decide (k = "Content-Type")) as [-> |];
      [rewrite lookup_insert_eq; exact (eq_sym Hct) | rewrite lookup_insert_ne by auto].
    destruct (decide (k = "Cache-Control")) as [-> |];
      [rewrite lookup_insert_eq; exact (eq_sym Hcc) | rewrite lookup_insert_ne by auto].
    destruct (decide (k = "Last-Modified")) as [-> |];
      [rewrite lookup_insert_eq; exact (eq_sym Hlm) | rewrite lookup_insert_ne by auto].
    destruct (decide (k = "ETag")) as [-> |];
      [rewrite lookup_insert_eq; exact (eq_sym Het) | rewrite lookup_insert_ne by auto].
    rewrite lookup_empty. symmetry. apply not_elem_of_dom. rewrite Hdom.
    rewrite !elem_of_union, !elem_of_singleton. tauto.
Qed.

End Runs.

Section Effects.
Context `{IL : Imaging.Lib} `{TL : Time.Lib}.

(** X8.  The storage is called at most once, only for a request the
    validator accepts, and always for the bucket "s3.images.story.io" with
    the path as key.  No call was made exactly when the status is 400. *)
Theorem handler_storage_calls (svc : S3.Client) (req : Events.APIGatewayProxyRequest) :
  callsOf (snd (handler svc req)) =
    (if accepted req
     then [{| S3.Bucket := "s3.images.story.io"; S3.Key := Events.Path req |}]
     else []) /\
  (callsOf (snd (handler svc req)) = [] <->
   statusOf (fst (handler svc req)) = Some 400).
Proof.
  destruct (handler_run svc req) as [Ha | e Ha Hs Hn | e Ha Hs Hn
    | obj p Ha Hs Hr | obj s e Ha Hs Hr | obj s Ha Hs Hr]; rewrite Ha; cbn [fst snd callsOf flat_map app];
    (split; [reflexivity |]); try (split; [discriminate | discriminate]).
  - split; reflexivity.
  - split; [discriminate |]. unfold envelope.
    destruct (S3.CacheControl obj), (S3.LastModified obj), (S3.ETag obj); discriminate.
Qed.

(** X9.  The body of a fetched object is closed exactly once, after the
    call, on every way out: served, decode or encode fault, panic.  When
    nothing was fetched nothing is closed. *)
Theorem handler_closes_body (svc : S3.Client) (req : Events.APIGatewayProxyRequest) :
  closesOf (snd (handler svc req)) =
    (if accepted req
     then match svc (inputOf req) with inl _ => 1%nat | inr _ => 0%nat end
     else 0%nat) /\
  (closesOf (snd (handler svc req)) = 1%nat ->
   snd (handler svc req) = [CallGetObject (inputOf req); CloseBody]) /\
  (forall obj, accepted req = true -> svc (inputOf req) = inl obj ->
   snd (handler svc req) = [CallGetObject (inputOf req); CloseBody]).
Proof.
  destruct (handler_run svc req) as [Ha | e Ha Hs Hn | e Ha Hs Hn
    | obj p Ha Hs Hr | obj s e Ha Hs Hr | obj s Ha Hs Hr]; rewrite Ha, ?Hs; cbn [snd];
    (split; [reflexivity |]); split;
    solve [ reflexivity | discriminate | intros; congruence ].
Qed.

End Effects.

(** ** The text of [EncodeToString] *)

Lemma EncodeToString_length (src : list byte) :
  Z.of_nat (String.length (Base64.EncodeToString src))
  = 4 * ((Z.of_nat (List.length src) + 2) / 3).
Proof.
  induction src as [| a | a b | a b c rest IH] using list_ind3;
    try reflexivity.
  cbn [Base64.EncodeToString String.length List.length].
  rewrite !Nat2Z.inj_succ, IH. Z.div_mod_to_equations. lia.
Qed.

Lemma isBase64Letter_encode (z : Z) :
  isBase64Letter (Base64.encode (z mod 64)) = true.
Proof. unfold isBase64Letter. rewrite decodeMap_sextet. reflexivity. Qed.

Lemma EncodeToString_letters (src : list byte) :
  allLetters (Base64.EncodeToString src) = true.
Proof.
  induction src as [| a | a b | a b c rest IH] using list_ind3;
    cbn [Base64.EncodeToString allLetters];
    rewrite ?land_63, ?isBase64Letter_encode, ?IH; reflexivity.
Qed.

Section Resizer.
Context `{IL : Imaging.Lib}.

(** X10.  Whatever [resizer] returns is of one of two kinds: an error
    with the empty text, the error being the decoder's or the encoder's
    own; or no error with the base64 text of the encoder's bytes, which
    decodes back to them.  It never returns a text together with an
    error.  And where [imaging.Resize] panics, on a decoded image whose
    right edge lies beyond the requested width, [resizer] returns
    nothing: it panics with the same value. *)
Theorem resizer_result (req : list byte) (config : RequestConfig) :
  (forall s err,
     resizer req config = Value (s, err) ->
     (exists cause,
        err = Some cause /\ s = EmptyString /\
        (Imaging.Decode req = inr cause \/
         exists src out, Imaging.Decode req = inl src /\
           outputImage config src = Value out /\
           Imaging.Encode out Imaging.JPEG = inr cause)) \/
     (exists src out buf,
        err = None /\ s = Base64.EncodeToString buf /\
        Imaging.Decode req = inl src /\
        outputImage config src = Value out /\
        Imaging.Encode out Imaging.JPEG = inl buf /\
        Base64.DecodeString s = Some buf)) /\
  (forall src e,
     Imaging.Decode req = inl src ->
     Width config < Image.X (Image.Max (Imaging.Bounds src)) ->
     Imaging.Resize src (Width config) (Height config) Imaging.Lanczos = Panics e ->
     resizer req config = Panics e).
Proof.
  split.
  - intros s err Hres. rewrite resizer_eq in Hres. unfold encoded in Hres.
    destruct (Imaging.Decode req) as [src | e] eqn:Hdec.
    + destruct (outputImage config src) as [out | p] eqn:Hout; [| discriminate].
      destruct (Imaging.Encode out Imaging.JPEG) as [buf | e] eqn:Henc;
        injection Hres as <- <-.
      * right. exists src, out, buf. repeat split; try assumption.
        apply base64_roundtrip.
      * left. exists e. split; [reflexivity |]. split; [reflexivity |].
        right. eauto.
    + injection Hres as <- <-. left. exists e. split; [reflexivity |].
      split; [reflexivity |]. left. reflexivity.
  - intros src e Hdec Hlt Hpanic. apply resizer_panics. exists src. auto.
Qed.

(** X11.  The text [resizer] returns is always well-formed base64:
    letters of the standard alphabet and '=' only, in groups of four (the
    empty text when there is an error). *)
Theorem resizer_text_wellformed (req : list byte) (config : RequestConfig)
    (s : string) (err : option error) :
  resizer req config = Value (s, err) ->
  allLetters s = true /\ Z.of_nat (String.length s) mod 4 = 0.
Proof.
  rewrite resizer_eq. unfold encoded.
  destruct (Imaging.Decode req) as [src | e];
    [| intros [= <- <-]; split; reflexivity].
  destruct (outputImage config src) as [out | p]; [| discriminate].
  destruct (Imaging.Encode _ _) as [buf | e]; intros [= <- <-];
    [| split; reflexivity].
  split; [apply EncodeToString_letters |].
  rewrite EncodeToString_length. rewrite Z.mul_comm. apply Z.mod_mul. lia.
Qed.

(** X12.  Once the requested width reaches the right edge of the image,
    nothing else in the configuration matters: every such request, with
    any height, bucket and key, gets the same answer, the image
    re-encoded as it is. *)
Theorem resizer_wide_requests_agree (req : list byte) (c1 c2 : RequestConfig) src :
  Imaging.Decode req = inl src ->
  Image.X (Image.Max (Imaging.Bounds src)) <= Width c1 ->
  Image.X (Image.Max (Imaging.Bounds src)) <= Width c2 ->
  resizer req c1 = resizer req c2 /\ resizer req c1 = Value (encoded src).
Proof.
  intros Hdec H1 H2.
  rewrite (resizer_pass_through req c1 src Hdec H1).
  rewrite (resizer_pass_through req c2 src Hdec H2). split; reflexivity.
Qed.

Lemma Resize_negative (img : Imaging.Img) (w h : Z) (f : Imaging.ResampleFilter) :
  w < 0 \/ h < 0 -> Imaging.Resize img w h f = Value Imaging.emptyNRGBA.
Proof.
  intros Hneg. unfold Imaging.Resize.
  destruct (w <? 0) eqn:E1; [reflexivity |].
  destruct (h <? 0) eqn:E2; [reflexivity |].
  apply Z.ltb_ge in E1, E2. lia.
Qed.

(** X13.  A negative requested side, with an image whose right edge lies
    beyond the requested width, sends the empty image, 0 by 0, to the
    encoder: nothing of the source is kept. *)
Theorem resizer_negative_side (req : list byte) (config : RequestConfig) src :
  Imaging.Decode req = inl src ->
  Width config < Image.X (Image.Max (Imaging.Bounds src)) ->
  Width config < 0 \/ Height config < 0 ->
  resizer req config = Value (encoded Imaging.emptyNRGBA) /\
  dims Imaging.emptyNRGBA = (0, 0).
Proof.
  intros Hdec Hlt Hneg. split.
  - rewrite (resizer_resizes req config src Hdec Hlt).
    rewrite Resize_negative by exact Hneg. reflexivity.
  - unfold dims. rewrite Imaging.Bounds_emptyNRGBA. reflexivity.
Qed.

(** X14.  For an image that is not empty and starts at column 0, and a
    request with positive width and height: whenever an image goes to
    the encoder (the resizer panics instead where [imaging.Resize]
    does), its width is the smaller of the source's width and the
    requested width.  The resizer never widens an image. *)
Theorem resizer_never_widens (req : list byte) (config : RequestConfig) src out :
  Imaging.Decode req = inl src ->
  Image.X (Image.Min (Imaging.Bounds src)) = 0 ->
  0 < Image.Dx (Imaging.Bounds src) -> 0 < Image.Dy (Imaging.Bounds src) ->
  0 < Width config -> 0 < Height config ->
  outputImage config src = Value out ->
  resizer req config = Value (encoded out) /\
  Image.Dx (Imaging.Bounds out)
  = Z.min (Image.Dx (Imaging.Bounds src)) (Width config).
Proof.
  intros Hdec Hmin Hsw Hsh Hw Hh Hout. split.
  - rewrite resizer_eq, Hdec, Hout. reflexivity.
  - unfold outputImage in Hout.
    assert (Hedge : Image.X (Image.Max (Imaging.Bounds src))
                    = Image.Dx (Imaging.Bounds src)) by (unfold Image.Dx; lia).
    rewrite Hedge in Hout.
    destruct (Z.leb_spec (Image.Dx (Imaging.Bounds src)) (Width config)).
    + injection Hout as <-. lia.
    + rewrite (Resize_exact src (Width config) (Height config) Imaging.Lanczos out)
        by assumption.
      destruct (Rect_origin_dims (Width config) (Height config)) as [-> _]; lia.
Qed.

Lemma Resize_width_zero (img : Imaging.Img) (h : Z) (f : Imaging.ResampleFilter)
    (out : Imaging.Img) :
  0 < h < 2 ^ 31 ->
  0 < Image.Dx (Imaging.Bounds img) < 2 ^ 31 ->
  0 < Image.Dy (Imaging.Bounds img) < 2 ^ 31 ->
  let w := Imaging.scaleDim h (Image.Dx (Imaging.Bounds img))
                            (Image.Dy (Imaging.Bounds img)) in
  1 <= w /\
  (Imaging.Resize img 0 h f = Value out ->
   Imaging.Bounds out = Image.Rect 0 0 w h).
Proof.
  intros Hh Hsw Hsh w.
  assert (Hw : 1 <= w) by (apply Imaging.scaleDim_min; assumption).
  split; [exact Hw |]. rewrite Resize_resample by lia. cbv zeta.
  change (0 =? 0) with true. cbv iota.
  destruct (h =? 0) eqn:E3; [apply Z.eqb_eq in E3; lia |].
  apply Imaging.Bounds_resample; lia.
Qed.

(** X15.  A requested side of 0 means "keep the aspect ratio".  For an
    image of ordinary size that starts at or right of column 0, the
    image is resized with [imaging.Resize] (which may panic), and
    whatever it returns goes to the encoder with these sides: with
    height 0 and a positive width below the right edge, the requested
    width by a height scaled from the source, at least 1; with width 0
    and a positive height, a width scaled from the source, at least 1,
    by the requested height. *)
Theorem resizer_zero_side (req : list byte) (config : RequestConfig) src dst :
  Imaging.Decode req = inl src ->
  0 <= Image.X (Image.Min (Imaging.Bounds src)) ->
  0 < Image.Dx (Imaging.Bounds src) < 2 ^ 31 ->
  0 < Image.Dy (Imaging.Bounds src) < 2 ^ 31 ->
  Imaging.Resize src (Width config) (Height config) Imaging.Lanczos = Value dst ->
  let srcW := Image.Dx (Imaging.Bounds src) in
  let srcH := Image.Dy (Imaging.Bounds src) in
  (Height config = 0 -> 0 < Width config < 2 ^ 31 ->
   Width config < Image.X (Image.Max (Imaging.Bounds src)) ->
   resizer req config = Value (encoded dst) /\
   dims dst = (Width config, Imaging.scaleDim (Width config) srcH srcW) /\
   1 <= Imaging.scaleDim (Width config) srcH srcW) /\
  (Width config = 0 -> 0 < Height config < 2 ^ 31 ->
   resizer req config = Value (encoded dst) /\
   dims dst = (Imaging.scaleDim (Height config) srcW srcH, Height config) /\
   1 <= Imaging.scaleDim (Height config) srcW srcH).
Proof.
  intros Hdec Hmin Hsw Hsh Hdst. cbv zeta. split.
  - intros Hh Hw Hlt.
    split; [rewrite (resizer_resizes req config src Hdec Hlt), Hdst; reflexivity |].
    unfold dims. rewrite Hh in Hdst.
    destruct (Resize_height_zero src (Width config) Imaging.Lanczos dst Hw Hsw Hsh)
      as [H1 H2].
    rewrite (H2 Hdst). split; [| exact H1].
    destruct (Rect_origin_dims (Width config)
                (Imaging.scaleDim (Width config) (Image.Dy (Imaging.Bounds src))
                   (Image.Dx (Imaging.Bounds src)))) as [-> ->];
      [lia | lia | reflexivity].
  - intros Hw Hh.
    assert (Hlt : Width config < Image.X (Image.Max (Imaging.Bounds src)))
      by (unfold Image.Dx in Hsw; lia).
    split; [rewrite (resizer_resizes req config src Hdec Hlt), Hdst; reflexivity |].
    unfold dims. rewrite Hw in Hdst.
    destruct (Resize_width_zero src (Height config) Imaging.Lanczos dst Hh Hsw Hsh)
      as [H1 H2].
    rewrite (H2 Hdst). split; [| exact H1].
    destruct (Rect_origin_dims
                (Imaging.scaleDim (Height config) (Image.Dx (Imaging.Bounds src))
                   (Image.Dy (Imaging.Bounds src))) (Height config)) as [-> ->];
      [lia | lia | reflexivity].
Qed.

End Resizer.

Section Frame.
Context `{IL : Imaging.Lib} `{TL : Time.Lib}.

(** X16.  The handler reads the storage at one place only, the key equal
    to the path in the fixed bucket: two storages that agree there give
    the same run. *)
Theorem handler_reads_one_key (svc1 svc2 : S3.Client)
    (req : Events.APIGatewayProxyRequest) :
  svc1 {| S3.Bucket := "s3.images.story.io"; S3.Key := Events.Path req |}
  = svc2 {| S3.Bucket := "s3.images.story.io"; S3.Key := Events.Path req |} ->
  handler svc1 req = handler svc2 req.
Proof.
  intros Hsame. rewrite !handler_eq.
  change {| S3.Bucket := _; S3.Key := _ |} with (inputOf req) in Hsame.
  rewrite Hsame. reflexivity.
Qed.

(** X17.  Query parameters other than "width" and "height" are not
    read: adding, changing or removing one leaves the run as it was. *)
Theorem handler_ignores_other_parameters (svc : S3.Client)
    (req : Events.APIGatewayProxyRequest) (k : string) (v : option string) :
  k <> "width" -> k <> "height" ->
  handler svc {| Events.Path := Events.Path req;
                 Events.QueryStringParameters :=
                   match v with
                   | Some x => <[k := x]> (Events.QueryStringParameters req)
                   | None => delete k (Events.QueryStringParameters req)
                   end |}
  = handler svc req.
Proof.
  intros Hw Hh. apply handler_ext; [reflexivity | |];
    unfold widthOf, heightOf, mapIndex; cbn [Events.QueryStringParameters];
    destruct v; rewrite ?lookup_insert_ne, ?lookup_delete_ne by assumption;
    reflexivity.
Qed.

End Frame.

(** ** Every outcome of [Atoi] *)

Lemma parseUintLoop_not_digits_cases (s : string) :
  allDigits s = false ->
  forall n,
  Strconv.parseUintLoop s n = (0, Some Strconv.ErrSyntax) \/
  Strconv.parseUintLoop s n = (Strconv.maxUint64, Some Strconv.ErrRange).
Proof.
  induction s as [| c s IH]; intros Hs n; [discriminate |].
  cbn [allDigits] in Hs. cbn [Strconv.parseUintLoop].
  unfold isDigit in Hs.
  destruct ((48 <=? byte_val c) && (byte_val c <=? 57)); [| left; reflexivity].
  cbn [andb] in Hs. cbv zeta.
  destruct (_ <=? n); [right; reflexivity |].
  destruct (_ || _); [right; reflexivity |].
  apply IH. exact Hs.
Qed.

(** What is not a number is never accepted: [Atoi] returns 0 with a syntax
    error, or a clamped value with a range error. *)
Lemma Atoi_not_numeric_cases (s : string) :
  numeric s = false ->
  Strconv.Atoi s = (0, Some Strconv.ErrSyntax) \/
  Strconv.Atoi s = (2 ^ 63 - 1, Some Strconv.ErrRange) \/
  Strconv.Atoi s = (- 2 ^ 63, Some Strconv.ErrRange).
Proof.
  intros Hnum. apply numeric_false in Hnum.
  unfold Strconv.Atoi.
  destruct ((0 <? Strconv.strlen s) && (Strconv.strlen s <? 19)) eqn:Hfast.
  - left. destruct s as [| c0 rest]; [reflexivity |].
    cbn [unsignedPart] in Hnum.
    rewrite (orb_comm (Ascii.eqb c0 "-")).
    destruct (Ascii.eqb c0 "+" || Ascii.eqb c0 "-") eqn:Hsign.
    + destruct Hnum as [-> | Hnd]; [reflexivity |].
      cbn [andb]. destruct (Strconv.strlen rest <? 1); [reflexivity |].
      rewrite atoiFastLoop_not_digits by exact Hnd. reflexivity.
    + destruct Hnum as [Hnil | Hnd]; [discriminate |].
      cbn [andb]. rewrite atoiFastLoop_not_digits by exact Hnd. reflexivity.
  - destruct s as [| c0 rest]; [left; reflexivity |].
    cbn [unsignedPart] in Hnum. unfold Strconv.ParseInt.
    set (u := if Ascii.eqb c0 "+" || Ascii.eqb c0 "-" then rest else String c0 rest) in *.
    assert (HPU : Strconv.ParseUint u = (0, Some Strconv.ErrSyntax) \/
                  Strconv.ParseUint u = (Strconv.maxUint64, Some Strconv.ErrRange)).
    { destruct Hnum as [-> | Hnd]; [left; reflexivity |].
      destruct u; [left; reflexivity |].
      apply parseUintLoop_not_digits_cases. exact Hnd. }
    destruct HPU as [-> | ->]; [left; reflexivity |].
    right. destruct (Ascii.eqb c0 "-"); [right | left]; reflexivity.
Qed.

(** X18.  [Atoi] reports no error exactly for a number that fits a
    64-bit [int], and then returns the number written; and whatever the
    text, the value it returns is a 64-bit [int], 0 on a syntax error.
    So the width and the height of every request are 64-bit integers. *)
Theorem Atoi_outcomes (s : string) :
  (snd (Strconv.Atoi s) = None <->
   numeric s = true /\ - 2 ^ 63 <= signedValue s <= 2 ^ 63 - 1) /\
  (snd (Strconv.Atoi s) = None -> fst (Strconv.Atoi s) = signedValue s) /\
  (snd (Strconv.Atoi s) = Some Strconv.ErrSyntax -> fst (Strconv.Atoi s) = 0) /\
  - 2 ^ 63 <= fst (Strconv.Atoi s) <= 2 ^ 63 - 1.
Proof.
  destruct (numeric s) eqn:Hnum.
  - rewrite (Atoi_numeric s Hnum). cbn [fst snd].
    destruct (Z.leb_spec (- 2 ^ 63) (signedValue s));
      destruct (Z.leb_spec (signedValue s) (2 ^ 63 - 1)); cbn [andb];
      unfold clamp64; repeat split; try discriminate; try lia;
      try (intros [_ ?]; lia).
  - destruct (Atoi_not_numeric_cases s Hnum) as [-> | [-> | ->]]; cbn [fst snd];
      repeat split; try discriminate; try lia;
      try (intros [? _]; discriminate).
Qed.

(** ** Further runs on the reference codec *)

Lemma handler_numeric_parameter_witness :
  let req := Reference.request "images.story.io"
               [("width", "100"); ("height", "-99999999999999999999")] in
  numeric "100" = true /\ numeric "-99999999999999999999" = true /\
  widthOf req = 100 /\ heightOf req = - 2 ^ 63.
Proof.
  intros req. split; [reflexivity |]. split; [reflexivity |]. split.
  - destruct (handler_numeric_parameter req "100" eq_refl) as (Hw & _ & _).
    rewrite Hw by reflexivity. reflexivity.
  - destruct (handler_numeric_parameter req "-99999999999999999999" eq_refl)
      as (_ & Hh & _).
    rewrite Hh by reflexivity. reflexivity.
Defined.

Lemma handler_statuses_witness :
  let req := Reference.request "images.story.io" [("width", "100"); ("height", "80")] in
  let svc := Reference.bucket "elsewhere" Runs.picture in
  fst (handler svc req) = Value (errResponse 404, None) /\
  Events.Body (errResponse 404) = "Not Found" /\
  Events.Headers (errResponse 404) !! "Content-Type" = Some "text/plain".
Proof.
  intros req svc.
  assert (Hrun : fst (handler svc req) = Value (errResponse 404, None)) by reflexivity.
  split; [exact Hrun |].
  destruct (handler_statuses svc req (errResponse 404) None Hrun)
    as [(H200 & _) | (code & _ & Hresp & Hbody & Hct & _)].
  - discriminate H200.
  - split; [reflexivity | exact Hct].
Defined.

Lemma handler_error_only_with_500_witness :
  let req := Reference.request "images.story.io" [("width", "100"); ("height", "80")] in
  let svc := Reference.bucket "images.story.io" (Reference.object [x00]) in
  let cause := OtherError "image: unknown format" in
  fst (handler svc req)
    = Value (errResponse 500, Some (withMessage cause "RESIZE PARSING ERROR")) /\
  exists obj s, svc (inputOf req) = inl obj /\
                resizer (S3.Body obj) (configOf req) = Value (s, Some cause).
Proof.
  intros req svc cause.
  assert (Hrun : fst (handler svc req)
            = Value (errResponse 500, Some (withMessage cause "RESIZE PARSING ERROR")))
    by reflexivity.
  split; [exact Hrun |].
  destruct (handler_error_only_with_500 svc req _ _ Hrun) as [_ Hcause].
  destruct (Hcause _ eq_refl) as (c & msg & Heq & [Hs | Hobj]).
  - vm_compute in Hs. discriminate Hs.
  - injection Heq as <- _. exact Hobj.
Defined.

Lemma handler_panics_iff_witness :
  let huge := Reference.request "images.story.io"
                [("width", "1"); ("height", "4611686018427387904")] in
  let req := Reference.request "images.story.io" [("width", "100"); ("height", "80")] in
  let panic := PanicValue "image: NewNRGBA Rectangle has huge or negative dimensions" in
  heightOf huge = 2 ^ 62 /\
  Imaging.Resize (Runs.rect 0 500 400) (widthOf huge) (heightOf huge) Imaging.Lanczos
  = Panics panic /\
  fst (handler Runs.store huge) = Panics panic /\
  fst (handler (Reference.bucket "images.story.io" Cases.undated) req)
  = Panics NilPointerDereference.
Proof.
  intros huge req panic.
  assert (Hresize : Imaging.Resize (Runs.rect 0 500 400) (widthOf huge)
                      (heightOf huge) Imaging.Lanczos = Panics panic)
    by reflexivity.
  split; [reflexivity |]. split; [exact Hresize |]. split.
  - destruct (handler_panics_iff Runs.store huge panic) as [Hiff Hresizer].
    apply Hiff. split; [split; reflexivity |]. exists Runs.picture.
    split; [reflexivity |]. left.
    apply (Hresizer Runs.picture (Runs.rect 0 500 400));
      [reflexivity | evaluated | exact Hresize].
  - apply (handler_panics_iff (Reference.bucket "images.story.io" Cases.undated) req).
    split; [split; reflexivity |]. exists Cases.undated.
    split; [reflexivity |]. right. split; [reflexivity |].
    exists "/9gAUABk/9k=". split; [reflexivity |]. right. left. reflexivity.
Defined.

Lemma handler_serves_iff_witness :
  let req := Reference.request "images.story.io" [("width", "100"); ("height", "80")] in
  exists resp,
    fst (handler Runs.store req) = Value (resp, None) /\
    Events.Headers resp !! "ETag" = Some "etag-1" /\
    Events.Headers resp !! "Last-Modified" = Some "Mon, 02 Jan 2006 15:04:05 GMT".
Proof.
  intros req.
  destruct (fst (handler Runs.store req)) as [[resp err] | e] eqn:Hrun;
    [| vm_compute in Hrun; discriminate Hrun].
  assert (H200 : Events.StatusCode resp = 200)
    by (vm_compute in Hrun; injection Hrun as <- <-; reflexivity).
  assert (Herr : err = None)
    by (vm_compute in Hrun; injection Hrun as <- <-; reflexivity).
  destruct (proj1 (handler_serves_iff Runs.store req resp)
              (ex_intro _ err (conj Hrun H200)))
    as (_ & obj & s & cc & lm & et & Hs & _ & _ & Hlm & Het & _ & _ & _ & _ & _
        & Hhlm & Hhet & _).
  vm_compute in Hs. injection Hs as <-.
  vm_compute in Hlm. injection Hlm as <-.
  vm_compute in Het. injection Het as <-.
  subst err. exists resp. split; [reflexivity |]. split; [exact Hhet | exact Hhlm].
Defined.

Lemma resizer_text_wellformed_witness :
  let req := Reference.raster 0 500 400 in
  resizer req (Runs.config 100 80) = Value ("/9gAUABk/9k=", None) /\
  allLetters "/9gAUABk/9k=" = true /\
  Z.of_nat (String.length "/9gAUABk/9k=") mod 4 = 0.
Proof.
  intros req.
  assert (Hres : resizer req (Runs.config 100 80) = Value ("/9gAUABk/9k=", None))
    by reflexivity.
  split; [exact Hres |].
  exact (resizer_text_wellformed req (Runs.config 100 80) _ _ Hres).
Defined.

Lemma resizer_wide_requests_agree_witness :
  let req := Reference.raster 0 500 400 in
  resizer req (Runs.config 500 1) = resizer req (Runs.config 9999 7) /\
  resizer req (Runs.config 500 1) = Value (encoded (Runs.rect 0 500 400)).
Proof.
  intros req.
  apply (resizer_wide_requests_agree req (Runs.config 500 1) (Runs.config 9999 7)
           (Runs.rect 0 500 400)); [reflexivity | evaluated | evaluated].
Defined.

Lemma resizer_negative_side_witness :
  let req := Reference.raster 0 500 400 in
  resizer req (Runs.config (-5) 80) = Value (encoded Imaging.emptyNRGBA) /\
  dims Imaging.emptyNRGBA = (0, 0).
Proof.
  intros req.
  apply (resizer_negative_side req (Runs.config (-5) 80) (Runs.rect 0 500 400));
    [reflexivity | evaluated | left; evaluated].
Defined.

Lemma resizer_never_widens_witness :
  let req := Reference.raster 0 500 400 in
  let config := Runs.config 100 80 in
  let src := Runs.rect 0 500 400 in
  let out := Runs.rect 0 100 80 in
  outputImage config src = Value out /\
  resizer req config = Value (encoded out) /\
  Image.Dx (Imaging.Bounds out) = Z.min 500 100.
Proof.
  intros req config src out. split; [reflexivity |].
  apply (resizer_never_widens req config src out);
    [reflexivity | reflexivity | evaluated | evaluated | evaluated | evaluated
    | reflexivity].
Defined.

Lemma resizer_zero_side_witness :
  let req := Reference.raster 0 500 400 in
  let config := Runs.config 100 0 in
  let src := Runs.rect 0 500 400 in
  let dst := Runs.rect 0 100 80 in
  Imaging.Resize src 100 0 Imaging.Lanczos = Value dst /\
  resizer req config = Value (encoded dst) /\
  dims dst = (100, Imaging.scaleDim 100 400 500) /\
  1 <= Imaging.scaleDim 100 400 500.
Proof.
  intros req config src dst.
  assert (Hdec : Imaging.Decode req = inl src) by reflexivity.
  assert (Hmin : 0 <= Image.X (Image.Min (Imaging.Bounds src))) by evaluated.
  assert (Hsw : 0 < Image.Dx (Imaging.Bounds src) < 2 ^ 31) by (split; evaluated).
  assert (Hsh : 0 < Image.Dy (Imaging.Bounds src) < 2 ^ 31) by (split; evaluated).
  assert (Hdst : Imaging.Resize src (Width config) (Height config) Imaging.Lanczos
                 = Value dst) by reflexivity.
  split; [exact Hdst |].
  destruct (resizer_zero_side req config src dst Hdec Hmin Hsw Hsh Hdst)
    as [Hheight _].
  apply Hheight; [reflexivity | split; evaluated | evaluated].
Defined.

Lemma handler_reads_one_key_witness :
  let req := Reference.request "images.story.io" [("width", "100"); ("height", "80")] in
  handler Runs.store req = handler (Cases.holding Runs.picture) req.
Proof.
  intros req.
  apply (handler_reads_one_key Runs.store (Cases.holding Runs.picture) req).
  reflexivity.
Defined.

Lemma handler_ignores_other_parameters_witness :
  let req := Reference.request "images.story.io" [("width", "100"); ("height", "80")] in
  handler Runs.store
    {| Events.Path := Events.Path req;
       Events.QueryStringParameters :=
         <["quality" := "90"]> (Events.QueryStringParameters req) |}
  = handler Runs.store req.
Proof.
  intros req.
  apply (handler_ignores_other_parameters Runs.store req "quality" (Some "90"));
    discriminate.
Defined.
